(** * Notification feedback policy and dispatch of lipstick

    A shallow embedding of [NotificationFeedbackPlayer]
    (src/notifications/notificationfeedbackplayer.cpp): the policy test
    [isEnabled] and the two slots [addNotification] and
    [removeNotification], together with the parts of Qt they go through
    ([QVariant] conversions, [QString] splitting, the multi-hash of event
    ids).  Integers of the program ([int], [uint]) are values of [Z]; only
    comparisons are made on them, so no wrap-around enters except in the
    [QVariant] conversion to [uint], where it is written out. *)

From Stdlib Require Import Ascii String.
From stdpp Require Import gmap strings list pretty.

Local Open Scope string_scope.
Local Open Scope list_scope.
Local Open Scope Z_scope.

(** ** Qt values *)

Module Qt.

(** The [QVariant] payloads that reach this code: hints arrive over D-Bus
    as booleans, integers or strings, and a default-constructed variant is
    invalid. *)
Inductive QVariant : Type :=
| QInvalid
| QBool (b : bool)
| QInt (i : Z)
| QUInt (u : Z)
| QStr (s : string).

#[global] Instance QVariant_eq_dec : EqDecision QVariant.
Proof. solve_decision. Defined.

(** [QString::isEmpty]. *)
Definition isEmpty (s : string) : bool :=
  match s with
  | EmptyString => true
  | String _ _ => false
  end.

(** [QStringList::isEmpty]. *)
Definition listIsEmpty (l : list string) : bool :=
  match l with
  | [] => true
  | _ :: _ => false
  end.

(** [QString::startsWith]. *)
Definition startsWith (s prefix : string) : bool := String.prefix prefix s.

(** [QString::remove(position, n)]. *)
Definition remove (position n : nat) (s : string) : string :=
  String.substring 0 position s
  +:+ String.substring (position + n) (String.length s - (position + n)) s.

(** [QChar::toLower] on the Latin letters, which is all the comparison in
    [toBool] can observe. *)
Definition lowerChar (c : ascii) : ascii :=
  let n := nat_of_ascii c in
  if ((65 <=? n) && (n <=? 90))%nat then ascii_of_nat (n + 32) else c.

Fixpoint toLower (s : string) : string :=
  match s with
  | EmptyString => EmptyString
  | String c rest => String (lowerChar c) (toLower rest)
  end.

(** [QString::split(sep, QString::SkipEmptyParts)] for a one-character
    separator: [current] holds the characters read since the last
    separator; a part is appended only when it is not empty. *)
Fixpoint splitFrom (sep : ascii) (current : string) (s : string)
  : list string :=
  match s with
  | EmptyString => if isEmpty current then [] else [current]
  | String c rest =>
      if Ascii.eqb c sep then
        if isEmpty current then splitFrom sep "" rest
        else current :: splitFrom sep "" rest
      else splitFrom sep (current +:+ String c "") rest
  end.

Definition split (sep : ascii) (s : string) : list string :=
  splitFrom sep "" s.

(** [QHash::value(key)] and [QMap::value(key)]: a default-constructed
    value when the key is missing. *)
Definition value (m : gmap string QVariant) (key : string) : QVariant :=
  default QInvalid (m !! key).

(** [value(key, defaultValue)]. *)
Definition valueOr (m : gmap string QVariant) (key : string)
    (defaultValue : QVariant) : QVariant :=
  default defaultValue (m !! key).

(** [QVariant::toBool]. *)
Definition toBool (v : QVariant) : bool :=
  match v with
  | QInvalid => false
  | QBool b => b
  | QInt i => negb (i =? 0)
  | QUInt u => negb (u =? 0)
  | QStr s =>
      let str := toLower s in
      negb (String.eqb str "0" || String.eqb str "false" || isEmpty str)
  end.

(** [QVariant::toString]. *)
Definition toString (v : QVariant) : string :=
  match v with
  | QInvalid => ""
  | QBool b => if b then "true" else "false"
  | QInt i => pretty i
  | QUInt u => pretty u
  | QStr s => s
  end.

Definition uintRange : Z := 2 ^ 32.

(** [QVariant::toUInt(bool *ok)]: the value and the [ok] flag.  The text
    of a string goes through [QString::toULongLong], here [toULongLong],
    which gives the number read, or nothing when the text is not one.  A
    signed or a too large number is cut down to 32 bits; a failed
    conversion gives 0. *)
Definition toUIntOk (toULongLong : string -> option Z) (v : QVariant)
  : Z * bool :=
  match v with
  | QInvalid => (0, false)
  | QBool b => (if b then 1 else 0, true)
  | QInt i => (i mod uintRange, true)
  | QUInt u => (u mod uintRange, true)
  | QStr s =>
      match toULongLong s with
      | Some n => (n mod uintRange, true)
      | None => (0, false)
      end
  end.

Definition toUInt (toULongLong : string -> option Z) (v : QVariant) : Z :=
  fst (toUIntOk toULongLong v).

End Qt.

Import Qt.

(** ** Data model *)

(** The address of a [LipstickNotification] object; the player keys its
    bindings by it. *)
Definition ptr := positive.

(** Modelled from the spec: the class [LipstickNotification] is declared
    outside the files at hand; the record has the attributes the data model
    gives a notification and the player reads through its accessors. *)
Record LipstickNotification : Type := {
  hints : gmap string QVariant;
  body : string;
  summary : string;
  urgency : Z;
  priority : Z;
  hidden : bool;
  restored : bool;
  hasProgress : bool
}.

(** Modelled from the spec: [NotificationManager] is declared outside the
    files at hand; [get(id) -> Notification?] is a table from ids to the
    live objects, each with its address. *)
Record NotificationManager : Type := {
  m_notifications : gmap Z (ptr * LipstickNotification)
}.

(** [NotificationManager::notification(id)]: the object, or the null
    pointer. *)
Definition notification (manager : NotificationManager) (id : Z)
  : option (ptr * LipstickNotification) :=
  m_notifications manager !! id.

(** Modelled from the spec: the compositor surface registry,
    [topmostSurface() -> Surface?] and [Surface.property(name) -> value?],
    is declared outside the files at hand. *)
Record QWaylandSurface : Type := {
  windowProperties : gmap string QVariant
}.

(** Modelled from the spec: [LipstickCompositor] is declared outside the
    files at hand; it knows which window is topmost and the surface of each
    window. *)
Record LipstickCompositor : Type := {
  topmostWindowId : Z;
  m_windows : gmap Z QWaylandSurface
}.

(** [LipstickCompositor::surfaceForId(id)]: the surface, or the null
    pointer. *)
Definition surfaceForId (compositor : LipstickCompositor) (id : Z)
  : option QWaylandSurface :=
  m_windows compositor !! id.

(** The two singletons the player reaches through [instance()]; both
    exist whenever a slot of the player runs. *)
Record World : Type := {
  manager : NotificationManager;
  compositor : LipstickCompositor
}.

(** [enum PreviewMode]. *)
Definition AllNotificationsEnabled : Z := 0.
Definition ApplicationNotificationsDisabled : Z := 1.
Definition SystemNotificationsDisabled : Z := 2.
Definition AllNotificationsDisabled : Z := 3.

(** A call made on the [Ngf::Client]. *)
Inductive NgfCall : Type :=
| NgfPlay (event : string) (properties : gmap string QVariant)
| NgfStopEvent (event : string)
| NgfStopId (eventId : Z).

#[global] Instance NgfCall_eq_dec : EqDecision NgfCall.
Proof. solve_decision. Defined.

(** What the code takes from outside the files at hand: the hint names
    declared by [LipstickNotification], the number parser of [QString], and
    the event id [Ngf::Client::play] answers with, which may depend on every
    call made on the client so far. *)
Class Externals : Type := {
  HINT_FEEDBACK : string;
  HINT_LED_DISABLED_WITHOUT_BODY_AND_SUMMARY : string;
  HINT_SUPPRESS_SOUND : string;
  HINT_ORIGIN_PACKAGE : string;
  HINT_SOUND_FILE : string;
  HINT_VIBRA : string;
  HINT_DISPLAY_ON : string;
  QString_toULongLong : string -> option Z;
  Ngf_play_id : list NgfCall -> string -> gmap string QVariant -> Z
}.

(** The player: the client is seen through the calls made on it, oldest
    first; [m_idToEventId] is the [QMultiHash], newest entry first, so that
    the entries of one key come out in the order Qt iterates them. *)
Record NotificationFeedbackPlayer : Type := {
  m_ngfClient : list NgfCall;
  m_minimumPriority : Z;
  m_idToEventId : list (ptr * Z)
}.

Section Player.

Context {ext : Externals}.

(** [NotificationFeedbackPlayer::isEnabled]. *)
Definition isEnabled (w : World) (notification : LipstickNotification)
    (minimumPriority : Z) : bool :=
  if hidden notification || restored notification then false
  else
    let mode :=
      match surfaceForId (compositor w) (topmostWindowId (compositor w)) with
      | Some surface =>
          toUInt QString_toULongLong
            (valueOr (windowProperties surface)
               "NOTIFICATION_PREVIEWS_DISABLED"
               (QUInt AllNotificationsEnabled))
      | None => AllNotificationsEnabled
      end in
    let urgency := urgency notification in
    let priority := priority notification in
    let notificationIsCritical :=
      (2 <=? urgency)
      || toBool (value (hints notification) HINT_DISPLAY_ON) in
    ((minimumPriority <=? priority) || notificationIsCritical)
    && ((mode =? AllNotificationsEnabled)
        || ((mode =? ApplicationNotificationsDisabled)
            && notificationIsCritical)
        || ((mode =? SystemNotificationsDisabled) && (urgency <? 2))).

(** [Ngf::Client::stop(quint32)], [Ngf::Client::stop(const QString &)] and
    [Ngf::Client::play]: the client records the call; [play] answers with an
    event id. *)
Definition stop (eventId : Z) (client : list NgfCall) : list NgfCall :=
  client ++ [NgfStopId eventId].

Definition stopEvent (event : string) (client : list NgfCall)
  : list NgfCall :=
  client ++ [NgfStopEvent event].

Definition play (event : string) (properties : gmap string QVariant)
    (client : list NgfCall) : Z * list NgfCall :=
  (Ngf_play_id client event properties, client ++ [NgfPlay event properties]).

(** The loop both slots start with: from [find(notification)] on, stop the
    event of every entry of the key and erase the entry.  The entries of one
    key lie together in a [QHash] and [erase] does not rehash, so the loop
    meets every entry of the key; here they are picked out of the list. *)
Fixpoint stopFeedback (key : ptr) (entries : list (ptr * Z))
    (client : list NgfCall) : list (ptr * Z) * list NgfCall :=
  match entries with
  | [] => ([], client)
  | (k, eventId) :: rest =>
      if decide (k = key) then stopFeedback key rest (stop eventId client)
      else
        let '(rest', client') := stopFeedback key rest client in
        ((k, eventId) :: rest', client')
  end.

(** The property map built for the feedback items. *)
Definition feedbackProperties (notification : LipstickNotification)
  : gmap string QVariant :=
  let properties : gmap string QVariant := ∅ in
  let properties :=
    if toBool (valueOr (hints notification)
                 HINT_LED_DISABLED_WITHOUT_BODY_AND_SUMMARY (QBool true))
       && isEmpty (body notification)
       && isEmpty (summary notification)
    then <["media.leds" := QBool false]> properties
    else properties in
  let properties :=
    if toBool (valueOr (hints notification) HINT_SUPPRESS_SOUND (QBool false))
    then <["media.audio" := QBool false]> properties
    else properties in
  let properties :=
    if negb (isEmpty (toString (value (hints notification)
                                  HINT_ORIGIN_PACKAGE)))
    then <["media.vibra" := QBool false]> properties
    else properties in
  let soundFile := toString (value (hints notification) HINT_SOUND_FILE) in
  if negb (isEmpty soundFile) then
    let soundFile :=
      if startsWith soundFile "file://" then remove 0 7 soundFile
      else soundFile in
    <["sound.enabled" := QBool true]>
      (<["sound.filename" := QStr soundFile]> properties)
  else properties.

(** The [foreach] over the feedback items. *)
Fixpoint playFeedback (key : ptr) (properties : gmap string QVariant)
    (feedbackItems : list string) (entries : list (ptr * Z))
    (client : list NgfCall) : list (ptr * Z) * list NgfCall :=
  match feedbackItems with
  | [] => (entries, client)
  | item :: rest =>
      let client := stopEvent item client in
      let '(eventId, client) := play item properties client in
      playFeedback key properties rest ((key, eventId) :: entries) client
  end.

(** The feedback items of a notification. *)
Definition feedbackItemsOf (notification : LipstickNotification)
  : list string :=
  let feedback := toString (value (hints notification) HINT_FEEDBACK) in
  split "," feedback.

(** [NotificationFeedbackPlayer::addNotification]. *)
Definition addNotification (w : World) (id : Z)
    (player : NotificationFeedbackPlayer) : NotificationFeedbackPlayer :=
  match notification (manager w) id with
  | Some (key, notification) =>
      if negb (hasProgress notification) then
        let '(entries, client) :=
          stopFeedback key (m_idToEventId player) (m_ngfClient player) in
        let feedbackItems := feedbackItemsOf notification in
        let '(entries, client) :=
          if isEnabled w notification (m_minimumPriority player)
             && negb (listIsEmpty feedbackItems)
          then
            playFeedback key (feedbackProperties notification) feedbackItems
              entries client
          else (entries, client) in
        let '(entries, client) :=
          if isEnabled w notification 0
             && toBool (valueOr (hints notification) HINT_VIBRA (QBool false))
          then
            let client := stopEvent "vibra" client in
            let '(eventId, client) := play "vibra" ∅ client in
            ((key, eventId) :: entries, client)
          else (entries, client) in
        {| m_ngfClient := client;
           m_minimumPriority := m_minimumPriority player;
           m_idToEventId := entries |}
      else player
  | None => player
  end.

(** [NotificationFeedbackPlayer::removeNotification]. *)
Definition removeNotification (w : World) (id : Z)
    (player : NotificationFeedbackPlayer) : NotificationFeedbackPlayer :=
  match notification (manager w) id with
  | Some (key, _) =>
      let '(entries, client) :=
        stopFeedback key (m_idToEventId player) (m_ngfClient player) in
      {| m_ngfClient := client;
         m_minimumPriority := m_minimumPriority player;
         m_idToEventId := entries |}
  | None => player
  end.

(** [NotificationFeedbackPlayer::minimumPriority] and
    [setMinimumPriority]. *)
Definition minimumPriority (player : NotificationFeedbackPlayer) : Z :=
  m_minimumPriority player.

Definition setMinimumPriority (minimumPriority : Z)
    (player : NotificationFeedbackPlayer) : NotificationFeedbackPlayer :=
  {| m_ngfClient := m_ngfClient player;
     m_minimumPriority := minimumPriority;
     m_idToEventId := m_idToEventId player |}.

(** What reaches the player, in the order it arrives, each with the state
    of the two singletons at that moment. *)
Inductive Event : Type :=
| NotificationAdded (w : World) (id : Z)
| NotificationRemoved (w : World) (id : Z)
| MinimumPrioritySet (minimumPriority : Z).

Definition handle (player : NotificationFeedbackPlayer) (event : Event)
  : NotificationFeedbackPlayer :=
  match event with
  | NotificationAdded w id => addNotification w id player
  | NotificationRemoved w id => removeNotification w id player
  | MinimumPrioritySet minimumPriority =>
      setMinimumPriority minimumPriority player
  end.

Definition run (events : list Event) (player : NotificationFeedbackPlayer)
  : NotificationFeedbackPlayer :=
  fold_left handle events player.

End Player.

(** ** What the statements are written with *)

(** The four suppression modes of the specification and their codes. *)
Inductive SuppressionMode : Type :=
| ModeAllEnabled
| ModeAppNotificationsDisabled
| ModeSystemNotificationsDisabled
| ModeAllDisabled.

Definition modeCode (mode : SuppressionMode) : Z :=
  match mode with
  | ModeAllEnabled => AllNotificationsEnabled
  | ModeAppNotificationsDisabled => ApplicationNotificationsDisabled
  | ModeSystemNotificationsDisabled => SystemNotificationsDisabled
  | ModeAllDisabled => AllNotificationsDisabled
  end.

(** The parts of a text between separators, the empty ones kept. *)
Fixpoint segments (sep : ascii) (s : string) : list string :=
  match s with
  | EmptyString => [""]
  | String c rest =>
      if Ascii.eqb c sep then "" :: segments sep rest
      else
        match segments sep rest with
        | [] => [String c ""]
        | first :: more => String c first :: more
        end
  end.

(** The parts put together again, a separator between two of them. *)
Fixpoint joined (sep : ascii) (parts : list string) : string :=
  match parts with
  | [] => ""
  | [part] => part
  | part :: more => part +:+ String sep (joined sep more)
  end.

(** A text without the separator. *)
Fixpoint separatorFree (sep : ascii) (s : string) : bool :=
  match s with
  | EmptyString => true
  | String c rest => negb (Ascii.eqb c sep) && separatorFree sep rest
  end.

(** The event ids bound to a key, newest first. *)
Definition eventIdsOf (key : ptr) (entries : list (ptr * Z)) : list Z :=
  (filter (λ entry, entry.1 = key) entries).*2.

Definition bindings (key : ptr) (player : NotificationFeedbackPlayer)
  : list Z :=
  eventIdsOf key (m_idToEventId player).

(** The entries of the other keys. *)
Definition entriesWithout (key : ptr) (entries : list (ptr * Z))
  : list (ptr * Z) :=
  filter (λ entry, entry.1 ≠ key) entries.

(** The calls of the feedback loop and of the vibration request. *)
Definition feedbackCalls (properties : gmap string QVariant)
    (feedbackItems : list string) : list NgfCall :=
  flat_map (λ item, [NgfStopEvent item; NgfPlay item properties])
    feedbackItems.

Definition vibraCalls : list NgfCall :=
  [NgfStopEvent "vibra"; NgfPlay "vibra" ∅].

(** The calls that start an effect. *)
Definition isPlay (call : NgfCall) : bool :=
  match call with
  | NgfPlay _ _ => true
  | _ => false
  end.

Definition isStopId (call : NgfCall) : bool :=
  match call with
  | NgfStopId _ => true
  | _ => false
  end.

(** A text with a leading [prefix] taken away, when it starts with it. *)
Fixpoint stripPrefix (prefix s : string) : option string :=
  match prefix, s with
  | EmptyString, _ => Some s
  | String _ _, EmptyString => None
  | String a prefix', String b s' =>
      if Ascii.eqb a b then stripPrefix prefix' s' else None
  end.

Definition withoutPrefix (prefix s : string) : string :=
  default s (stripPrefix prefix s).

Section Statements.

Context {ext : Externals}.

(** The test for a critical notification. *)
Definition isCritical (notification : LipstickNotification) : bool :=
  (2 <=? urgency notification)
  || toBool (value (hints notification) HINT_DISPLAY_ON).

(** The permission rules, one suppression mode at a time. *)
Definition permits (mode : SuppressionMode)
    (notification : LipstickNotification) : bool :=
  match mode with
  | ModeAllEnabled => true
  | ModeAppNotificationsDisabled => isCritical notification
  | ModeSystemNotificationsDisabled => urgency notification <? 2
  | ModeAllDisabled => false
  end.

(** The mode [isEnabled] reads from the topmost window. *)
Definition currentSuppressionMode (w : World) : Z :=
  match surfaceForId (compositor w) (topmostWindowId (compositor w)) with
  | Some surface =>
      toUInt QString_toULongLong
        (valueOr (windowProperties surface) "NOTIFICATION_PREVIEWS_DISABLED"
           (QUInt AllNotificationsEnabled))
  | None => AllNotificationsEnabled
  end.

(** The event ids [play] answered with in [calls], made after [history]. *)
Fixpoint startedIds (history : list NgfCall) (calls : list NgfCall)
  : list Z :=
  match calls with
  | [] => []
  | NgfPlay event properties :: rest =>
      Ngf_play_id history event properties
      :: startedIds (history ++ [NgfPlay event properties]) rest
  | call :: rest => startedIds (history ++ [call]) rest
  end.

(** The vibration request of a notification is honoured. *)
Definition vibraRequested (w : World) (notification : LipstickNotification)
  : bool :=
  isEnabled w notification 0
  && toBool (valueOr (hints notification) HINT_VIBRA (QBool false)).

(** The feedback items of a notification are played. *)
Definition feedbackPlayed (w : World) (notification : LipstickNotification)
    (player : NotificationFeedbackPlayer) : bool :=
  isEnabled w notification (m_minimumPriority player)
  && negb (listIsEmpty (feedbackItemsOf notification)).

(** The calls [addNotification] makes after the stops of the old events. *)
Definition startCalls (w : World) (notification : LipstickNotification)
    (player : NotificationFeedbackPlayer) : list NgfCall :=
  (if feedbackPlayed w notification player
   then feedbackCalls (feedbackProperties notification)
          (feedbackItemsOf notification)
   else [])
  ++ (if vibraRequested w notification then vibraCalls else []).

(** A hint that is there and reads as false, and a hint that reads as
    true. *)
Definition explicitlyFalse (hint : option QVariant) : bool :=
  match hint with
  | Some v => negb (toBool v)
  | None => false
  end.

Definition hintSet (hint : option QVariant) : bool :=
  match hint with
  | Some v => toBool v
  | None => false
  end.

(** The three switches of the parameter set, in the words of the
    specification. *)
Definition ledDisabled (notification : LipstickNotification) : bool :=
  isEmpty (body notification)
  && isEmpty (summary notification)
  && negb (explicitlyFalse
             (hints notification
                !! HINT_LED_DISABLED_WITHOUT_BODY_AND_SUMMARY)).

Definition audioDisabled (notification : LipstickNotification) : bool :=
  hintSet (hints notification !! HINT_SUPPRESS_SOUND).

Definition vibrationDisabled (notification : LipstickNotification) : bool :=
  negb (isEmpty (toString (value (hints notification) HINT_ORIGIN_PACKAGE))).

(** The sound file named by the hint, when its text is not empty. *)
Definition soundFileName (notification : LipstickNotification)
  : option string :=
  let soundFile := toString (value (hints notification) HINT_SOUND_FILE) in
  if isEmpty soundFile then None else Some (withoutPrefix "file://" soundFile).

(** The parameter set, in the words of the specification. *)
Definition parameterSet (notification : LipstickNotification)
  : gmap string QVariant :=
  (if ledDisabled notification
   then {[ "media.leds" := QBool false ]} else ∅)
  ∪ (if audioDisabled notification
     then {[ "media.audio" := QBool false ]} else ∅)
  ∪ (if vibrationDisabled notification
     then {[ "media.vibra" := QBool false ]} else ∅)
  ∪ (match soundFileName notification with
     | Some file =>
         {[ "sound.filename" := QStr file; "sound.enabled" := QBool true ]}
     | None => ∅
     end).

End Statements.

(** ** A device to evaluate the code on *)

(** A text of decimal digits as a number. *)
Fixpoint digitsValue (acc : Z) (s : string) : option Z :=
  match s with
  | EmptyString => Some acc
  | String c rest =>
      let n := Z.of_nat (nat_of_ascii c) in
      if (48 <=? n) && (n <=? 57) then digitsValue (10 * acc + (n - 48)) rest
      else None
  end.

Definition decimalNumber (s : string) : option Z :=
  if isEmpty s then None
  else
    match digitsValue 0 s with
    | Some n => if n <? 2 ^ 64 then Some n else None
    | None => None
    end.

(** The hint names of the Nemo platform, a parser of decimal digits, and a
    client that numbers the events it plays from 1. *)
Definition nemo : Externals := {|
  HINT_FEEDBACK := "x-nemo-feedback";
  HINT_LED_DISABLED_WITHOUT_BODY_AND_SUMMARY :=
    "x-nemo-led-disabled-without-body-and-summary";
  HINT_SUPPRESS_SOUND := "suppress-sound";
  HINT_ORIGIN_PACKAGE := "x-nemo-origin-package";
  HINT_SOUND_FILE := "sound-file";
  HINT_VIBRA := "x-nemo-vibrate";
  HINT_DISPLAY_ON := "x-nemo-display-on";
  QString_toULongLong := decimalNumber;
  Ngf_play_id := λ history _ _,
    1 + Z.of_nat (length (filter (λ call, isPlay call = true) history))
|}.

(** A notification with the given hints, urgency and priority, and with a
    summary. *)
Definition posted (hints : list (string * QVariant)) (urgency priority : Z)
  : LipstickNotification := {|
  hints := list_to_map hints;
  body := "";
  summary := "New message";
  urgency := urgency;
  priority := priority;
  hidden := false;
  restored := false;
  hasProgress := false
|}.

(** A world whose notifications are [notifications] and whose topmost
    window, number 1, has the properties [properties]. *)
Definition worldWith (notifications : list (Z * (ptr * LipstickNotification)))
    (properties : list (string * QVariant)) : World := {|
  manager := {| m_notifications := list_to_map notifications |};
  compositor := {|
    topmostWindowId := 1;
    m_windows := {[ 1 := {| windowProperties := list_to_map properties |} ]}
  |}
|}.

(** A world without any window. *)
Definition worldWithoutWindow
    (notifications : list (Z * (ptr * LipstickNotification))) : World := {|
  manager := {| m_notifications := list_to_map notifications |};
  compositor := {| topmostWindowId := 0; m_windows := ∅ |}
|}.

(** A player that has made no call yet, with the given threshold and
    entries. *)
Definition playerWith (minimumPriority : Z) (entries : list (ptr * Z))
  : NotificationFeedbackPlayer := {|
  m_ngfClient := [];
  m_minimumPriority := minimumPriority;
  m_idToEventId := entries
|}.

(** The suppression property of a window. *)
Definition previewsDisabled (v : QVariant) : list (string * QVariant) :=
  [("NOTIFICATION_PREVIEWS_DISABLED", v)].

(** A chat message of normal urgency and priority 5, first with sound and
    LED feedback, then updated to LED feedback only. *)
Definition chat : LipstickNotification :=
  posted [("x-nemo-feedback", QStr "sound,led")] 1 5.

Definition chatUpdated : LipstickNotification :=
  posted [("x-nemo-feedback", QStr "led")] 1 5.

(** A critical notification of priority 0. *)
Definition alarm : LipstickNotification := posted [] 2 0.

(** A critical notification of a high priority that is hidden, and a
    transfer that reports progress. *)
Definition hiddenAlarm : LipstickNotification := {|
  hints := ∅; body := ""; summary := "Alarm"; urgency := 2; priority := 9;
  hidden := true; restored := false; hasProgress := false
|}.

Definition transfer : LipstickNotification := {|
  hints := {[ "x-nemo-feedback" := QStr "sound" ]};
  body := ""; summary := "Download"; urgency := 1; priority := 5;
  hidden := false; restored := false; hasProgress := true
|}.

(** Requests for vibration at priority 0 and normal urgency, the second
    with the display-always hint. *)
Definition buzz : LipstickNotification :=
  posted [("x-nemo-vibrate", QBool true)] 1 0.

Definition buzzDisplayOn : LipstickNotification :=
  posted [("x-nemo-vibrate", QBool true); ("x-nemo-display-on", QBool true)]
    1 0.

(** A forwarded call with a ringtone, and a notification with a sound file
    but no feedback. *)
Definition call : LipstickNotification :=
  posted [("x-nemo-feedback", QStr "ring");
          ("sound-file", QStr "file:///usr/share/sounds/ring.wav");
          ("suppress-sound", QStr "false");
          ("x-nemo-origin-package", QStr "com.example.phone")] 1 5.

(** A forwarded message that asks for vibration and whose sound-file hint
    is an empty text. *)
Definition forwardedSilent : LipstickNotification :=
  posted [("x-nemo-feedback", QStr "sound"); ("sound-file", QStr "");
          ("x-nemo-origin-package", QStr "com.example.chat");
          ("x-nemo-vibrate", QBool true)] 1 5.

Definition soundFileOnly : LipstickNotification :=
  posted [("sound-file", QStr "file:///tmp/chime.wav")] 1 5.

(** The text read so far is put before the first part of what follows. *)
Definition startedWith (current : string) (parts : list string)
  : list string :=
  match parts with
  | [] => [current]
  | first :: more => (current +:+ first) :: more
  end.

Definition nonEmpty (s : string) : Prop := isEmpty s = false.

#[global] Instance nonEmpty_dec s : Decision (nonEmpty s).
Proof. unfold nonEmpty. apply _. Defined.

(** ** The player from its constructor on *)

(** [NotificationFeedbackPlayer::NotificationFeedbackPlayer]: a client on
    which no call has been made, the threshold 0 and no entry. *)
Definition newPlayer : NotificationFeedbackPlayer := {|
  m_ngfClient := [];
  m_minimumPriority := 0;
  m_idToEventId := []
|}.

(** The threshold in force after [events], starting from [current]. *)
Fixpoint lastThreshold (events : list Event) (current : Z) : Z :=
  match events with
  | [] => current
  | MinimumPrioritySet minimumPriority :: rest =>
      lastThreshold rest minimumPriority
  | _ :: rest => lastThreshold rest current
  end.

(** Calls that come as stops of an event id, or as the stop of an effect
    name followed at once by the start of the effect of that name. *)
Inductive Paired : list NgfCall → Prop :=
| Paired_nil : Paired []
| Paired_stop eventId rest :
    Paired rest → Paired (NgfStopId eventId :: rest)
| Paired_play event properties rest :
    Paired rest →
    Paired (NgfStopEvent event :: NgfPlay event properties :: rest).

(** A start names an effect by a text that is not empty and has no
    comma. *)
Definition namedPlay (call : NgfCall) : Prop :=
  match call with
  | NgfPlay event _ => event ≠ "" ∧ separatorFree "," event = true
  | _ => True
  end.

(** Two sequences of calls that differ in how they are put together. *)
Ltac flatten_calls := rewrite <- ?app_assoc; reflexivity.

(** ** The parts of a split text *)

Lemma segments_not_nil sep s : segments sep s ≠ [].
Proof.
  destruct s as [|c rest]; simpl; [done|].
  destruct (Ascii.eqb c sep); [done|].
  by destruct (segments sep rest).
Qed.

Lemma joined_segments sep s : joined sep (segments sep s) = s.
Proof.
  induction s as [|c rest IH]; simpl; [done|].
  destruct (Ascii.eqb_spec c sep) as [->|Hne].
  - pose proof (segments_not_nil sep rest) as Hnil.
    destruct (segments sep rest) as [|first more] eqn:Hseg; [done|].
    simpl. simpl in IH. by rewrite IH.
  - pose proof (segments_not_nil sep rest) as Hnil.
    destruct (segments sep rest) as [|first more] eqn:Hseg; [done|].
    simpl in *. destruct more as [|second more]; simpl in *.
    + by rewrite IH.
    + by rewrite <- IH.
Qed.

Lemma segments_separatorFree sep s :
  Forall (λ part, separatorFree sep part = true) (segments sep s).
Proof.
  induction s as [|c rest IH]; simpl.
  - by constructor.
  - destruct (Ascii.eqb c sep) eqn:Hc.
    + by constructor.
    + destruct (segments sep rest) as [|first more].
      * constructor; [|done]. simpl. by rewrite Hc.
      * inversion IH as [|? ? Hfirst Hmore]; subst.
        constructor; [|done]. simpl. by rewrite Hc, Hfirst.
Qed.

Lemma append_cons (c : ascii) (a b : string) :
  String c a +:+ b = String c (a +:+ b).
Proof. reflexivity. Qed.

Lemma append_empty_l (s : string) : "" +:+ s = s.
Proof. reflexivity. Qed.

Lemma append_empty_r (s : string) : s +:+ "" = s.
Proof.
  induction s as [|c rest IH]; [done|]. by rewrite append_cons, IH.
Qed.

Lemma append_assoc (a b c : string) : (a +:+ b) +:+ c = a +:+ (b +:+ c).
Proof.
  induction a as [|x rest IH]; [done|]. by rewrite !append_cons, IH.
Qed.

Lemma isEmpty_append (a b : string) :
  isEmpty (a +:+ b) = isEmpty a && isEmpty b.
Proof. by destruct a. Qed.

Lemma splitFrom_segments sep current s :
  splitFrom sep current s
  = filter nonEmpty (startedWith current (segments sep s)).
Proof.
  revert current. induction s as [|c rest IH]; intros current; simpl.
  - rewrite append_empty_r. unfold filter, list_filter.
    destruct (decide (nonEmpty current)) as [H|H]; unfold nonEmpty in H.
    + by rewrite H.
    + apply not_false_is_true in H. by rewrite H.
  - destruct (Ascii.eqb c sep) eqn:Hc; simpl.
    + rewrite append_empty_r, !IH.
      pose proof (segments_not_nil sep rest) as Hnil.
      destruct (segments sep rest) as [|first more]; [done|]. simpl.
      rewrite (filter_cons _ current).
      destruct (decide (nonEmpty current)) as [H|H]; unfold nonEmpty in H.
      * by rewrite H.
      * apply not_false_is_true in H. by rewrite H.
    + rewrite IH.
      pose proof (segments_not_nil sep rest) as Hnil.
      destruct (segments sep rest) as [|first more]; [done|]. simpl.
      by rewrite append_assoc.
Qed.

Lemma split_segments sep s :
  split sep s = filter nonEmpty (segments sep s).
Proof.
  unfold split. rewrite splitFrom_segments.
  pose proof (segments_not_nil sep s) as Hnil.
  by destruct (segments sep s).
Qed.

(** ** Taking a prefix away *)

Lemma substring_whole (s : string) : String.substring 0 (String.length s) s = s.
Proof. induction s as [|c rest IH]; [done|]. simpl. by rewrite IH. Qed.

Lemma substring_nothing (s : string) : String.substring 0 0 s = "".
Proof. by destruct s. Qed.

Lemma length_append (a b : string) :
  String.length (a +:+ b) = (String.length a + String.length b)%nat.
Proof.
  induction a as [|c rest IH]; [done|]. rewrite append_cons. simpl.
  by rewrite IH.
Qed.

Lemma remove_prefix (prefix rest : string) :
  remove 0 (String.length prefix) (prefix +:+ rest) = rest.
Proof.
  unfold remove. rewrite substring_nothing, append_empty_l, length_append.
  replace (String.length prefix + String.length rest - (0 + String.length prefix))%nat
    with (String.length rest) by lia.
  simpl. induction prefix as [|c prefix' IH].
  - apply substring_whole.
  - rewrite append_cons. simpl. apply IH.
Qed.

Lemma stripPrefix_spec (prefix s : string) :
  match stripPrefix prefix s with
  | Some rest => s = prefix +:+ rest ∧ startsWith s prefix = true
  | None => startsWith s prefix = false
  end.
Proof.
  unfold startsWith. revert s.
  induction prefix as [|a prefix' IH]; intros s.
  - simpl. by destruct s.
  - destruct s as [|b s']; simpl; [done|].
    destruct (Ascii.eqb_spec a b) as [->|Hne].
    + destruct (ascii_dec b b) as [_|Hbb]; [|done].
      specialize (IH s'). destruct (stripPrefix prefix' s') as [rest|].
      * destruct IH as [-> Hprefix]. by rewrite append_cons.
      * done.
    + by destruct (ascii_dec a b).
Qed.

Lemma strip_file_prefix (soundFile : string) :
  (if startsWith soundFile "file://" then remove 0 7 soundFile else soundFile)
  = withoutPrefix "file://" soundFile.
Proof.
  unfold withoutPrefix.
  pose proof (stripPrefix_spec "file://" soundFile) as Hspec.
  destruct (stripPrefix "file://" soundFile) as [rest|]; simpl.
  - destruct Hspec as [-> ->]. apply (remove_prefix "file://").
  - by rewrite Hspec.
Qed.

(** ** The multi-hash of event ids *)

Lemma eventIdsOf_cons_eq key eventId entries :
  eventIdsOf key ((key, eventId) :: entries)
  = eventId :: eventIdsOf key entries.
Proof. unfold eventIdsOf. by rewrite filter_cons_True. Qed.

Lemma eventIdsOf_cons_ne key other eventId entries :
  other ≠ key →
  eventIdsOf key ((other, eventId) :: entries) = eventIdsOf key entries.
Proof. intros Hne. unfold eventIdsOf. by rewrite filter_cons_False. Qed.

Lemma eventIdsOf_app key front back :
  eventIdsOf key (front ++ back)
  = eventIdsOf key front ++ eventIdsOf key back.
Proof. unfold eventIdsOf. by rewrite filter_app, fmap_app. Qed.

Lemma eventIdsOf_own key (eventIds : list Z) :
  eventIdsOf key (map (pair key) eventIds) = eventIds.
Proof.
  induction eventIds as [|eventId rest IH]; [done|].
  simpl. by rewrite eventIdsOf_cons_eq, IH.
Qed.

Lemma eventIdsOf_foreign key other (eventIds : list Z) :
  other ≠ key → eventIdsOf key (map (pair other) eventIds) = [].
Proof.
  intros Hne. induction eventIds as [|eventId rest IH]; [done|].
  simpl. by rewrite eventIdsOf_cons_ne.
Qed.

Lemma eventIdsOf_entriesWithout key entries :
  eventIdsOf key (entriesWithout key entries) = [].
Proof.
  induction entries as [|[k eventId] rest IH]; [done|].
  unfold entriesWithout in *. rewrite filter_cons. simpl.
  destruct (decide (k ≠ key)) as [Hne|Heq]; [|done].
  by rewrite eventIdsOf_cons_ne.
Qed.

Lemma eventIdsOf_entriesWithout_ne key other entries :
  other ≠ key →
  eventIdsOf other (entriesWithout key entries) = eventIdsOf other entries.
Proof.
  intros Hne. induction entries as [|[k eventId] rest IH]; [done|].
  unfold entriesWithout in *. rewrite filter_cons. simpl.
  destruct (decide (k ≠ key)) as [Hk|Hk].
  - destruct (decide (k = other)) as [->|Hko].
    + by rewrite !eventIdsOf_cons_eq, IH.
    + by rewrite !eventIdsOf_cons_ne.
  - apply dec_stable in Hk. subst k.
    rewrite eventIdsOf_cons_ne; [done|]. congruence.
Qed.

Section Dispatch.

Context {ext : Externals}.

Lemma stopFeedback_spec key entries client :
  stopFeedback key entries client
  = (entriesWithout key entries,
     client ++ map NgfStopId (eventIdsOf key entries)).
Proof.
  revert client. induction entries as [|[k eventId] rest IH]; intros client.
  - simpl. by rewrite app_nil_r.
  - simpl. destruct (decide (k = key)) as [->|Hne].
    + rewrite IH, eventIdsOf_cons_eq. unfold stop, entriesWithout.
      rewrite filter_cons_False by (simpl; tauto).
      simpl. by rewrite <- app_assoc.
    + rewrite IH, eventIdsOf_cons_ne by done. unfold entriesWithout.
      by rewrite filter_cons_True.
Qed.

Lemma startedIds_app history front back :
  startedIds history (front ++ back)
  = startedIds history front ++ startedIds (history ++ front) back.
Proof.
  revert history. induction front as [|call rest IH]; intros history.
  - simpl. by rewrite app_nil_r.
  - destruct call; simpl; rewrite IH, <- app_assoc; done.
Qed.

Lemma startedIds_stops history (eventIds : list Z) :
  startedIds history (map NgfStopId eventIds) = [].
Proof.
  revert history. induction eventIds as [|eventId rest IH]; intros history.
  - done.
  - simpl. apply IH.
Qed.

Lemma playFeedback_spec key properties feedbackItems entries client :
  playFeedback key properties feedbackItems entries client
  = (map (pair key)
       (rev (startedIds client (feedbackCalls properties feedbackItems)))
     ++ entries,
     client ++ feedbackCalls properties feedbackItems).
Proof.
  revert entries client.
  induction feedbackItems as [|item rest IH]; intros entries client.
  - simpl. by rewrite app_nil_r.
  - simpl. rewrite IH. unfold stopEvent. f_equal.
    + rewrite <- !app_assoc. simpl.
      rewrite map_app, <- app_assoc. done.
    + by rewrite <- !app_assoc.
Qed.

Lemma addNotification_live w id key n player :
  notification (manager w) id = Some (key, n) →
  hasProgress n = false →
  addNotification w id player
  = {| m_ngfClient :=
         m_ngfClient player ++ map NgfStopId (bindings key player)
         ++ startCalls w n player;
       m_minimumPriority := m_minimumPriority player;
       m_idToEventId :=
         map (pair key)
           (rev (startedIds
                   (m_ngfClient player
                    ++ map NgfStopId (bindings key player))
                   (startCalls w n player)))
         ++ entriesWithout key (m_idToEventId player) |}.
Proof.
  intros Hlive Hprogress. unfold addNotification.
  rewrite Hlive, Hprogress. simpl.
  rewrite stopFeedback_spec. unfold startCalls, bindings.
  fold (feedbackPlayed w n player). fold (vibraRequested w n).
  destruct (feedbackPlayed w n player); destruct (vibraRequested w n).
  - rewrite playFeedback_spec. unfold stopEvent, play, vibraCalls.
    rewrite startedIds_app. simpl. rewrite rev_app_distr, map_app. simpl.
    f_equal. flatten_calls.
  - rewrite playFeedback_spec. rewrite !app_nil_r. f_equal. flatten_calls.
  - unfold stopEvent, play, vibraCalls. simpl. f_equal. flatten_calls.
  - simpl. by rewrite !app_nil_r.
Qed.

Lemma removeNotification_live w id key n player :
  notification (manager w) id = Some (key, n) →
  removeNotification w id player
  = {| m_ngfClient :=
         m_ngfClient player ++ map NgfStopId (bindings key player);
       m_minimumPriority := m_minimumPriority player;
       m_idToEventId := entriesWithout key (m_idToEventId player) |}.
Proof.
  intros Hlive. unfold removeNotification. rewrite Hlive.
  by rewrite stopFeedback_spec.
Qed.

Lemma isEnabled_unfold w n minimumPriority :
  isEnabled w n minimumPriority
  = negb (hidden n || restored n)
    && ((minimumPriority <=? priority n) || isCritical n)
    && ((currentSuppressionMode w =? AllNotificationsEnabled)
        || ((currentSuppressionMode w =? ApplicationNotificationsDisabled)
            && isCritical n)
        || ((currentSuppressionMode w =? SystemNotificationsDisabled)
            && (urgency n <? 2))).
Proof.
  unfold isEnabled, currentSuppressionMode, isCritical.
  by destruct (hidden n || restored n).
Qed.

(** ** The policy *)

(** C1: a notification that is neither hidden nor restored is enabled
    exactly when its priority reaches the minimum or it is critical, and the
    suppression mode permits it: all-enabled always, app-notifications-
    disabled only a critical one, system-notifications-disabled only one of
    an urgency below 2, all-disabled never. *)
Theorem isEnabled_policy w n minimumPriority mode :
  hidden n = false →
  restored n = false →
  currentSuppressionMode w = modeCode mode →
  (isEnabled w n minimumPriority = true
   ↔ (minimumPriority ≤ priority n ∨ isCritical n = true)
     ∧ permits mode n = true)
  ∧ (isCritical n = true
     ↔ 2 ≤ urgency n ∨ toBool (value (hints n) HINT_DISPLAY_ON) = true).
Proof.
  intros Hhidden Hrestored Hmode. split.
  - rewrite isEnabled_unfold, Hhidden, Hrestored, Hmode. simpl.
    rewrite andb_true_iff, orb_true_iff, Z.leb_le.
    destruct mode; simpl; rewrite ?orb_false_r, ?andb_true_r; tauto.
  - unfold isCritical. by rewrite orb_true_iff, Z.leb_le.
Qed.

(** C2: a hidden or a restored notification is never enabled, whatever its
    priority, urgency and hints, the minimum priority and the suppression
    mode. *)
Theorem isEnabled_hidden_or_restored w n minimumPriority :
  hidden n = true ∨ restored n = true →
  isEnabled w n minimumPriority = false.
Proof.
  intros [H|H]; unfold isEnabled; rewrite H; [done|].
  by rewrite orb_true_r.
Qed.

(** C9: without a topmost window, or when the topmost window has no
    suppression property or one that is no number, the mode is all-enabled
    and the mode never keeps a notification from being enabled. *)
Theorem isEnabled_without_suppression_property w :
  surfaceForId (compositor w) (topmostWindowId (compositor w)) = None
  ∨ (∃ surface,
       surfaceForId (compositor w) (topmostWindowId (compositor w))
       = Some surface
       ∧ (windowProperties surface !! "NOTIFICATION_PREVIEWS_DISABLED" = None
          ∨ ∃ v,
              windowProperties surface !! "NOTIFICATION_PREVIEWS_DISABLED"
              = Some v
              ∧ (toUIntOk QString_toULongLong v).2 = false)) →
  currentSuppressionMode w = AllNotificationsEnabled
  ∧ ∀ n minimumPriority,
      isEnabled w n minimumPriority
      = negb (hidden n || restored n)
        && ((minimumPriority <=? priority n) || isCritical n).
Proof.
  intros Hsurface.
  assert (currentSuppressionMode w = AllNotificationsEnabled) as Hmode.
  { unfold currentSuppressionMode.
    destruct Hsurface as [->|(surface & -> & [Hnone|(v & Hsome & Hok)])].
    - done.
    - unfold valueOr. by rewrite Hnone.
    - unfold valueOr, toUInt. rewrite Hsome. simpl.
      destruct v as [|b|i|u|s]; simpl in *; try done.
      by destruct (QString_toULongLong s). }
  split; [done|]. intros n minimumPriority.
  rewrite isEnabled_unfold, Hmode. simpl. by rewrite andb_true_r.
Qed.

(** C10: when the mode read from the topmost window is none of 0, 1 and 2,
    be it 3 or a number without a name, no notification is enabled. *)
Theorem isEnabled_other_mode w n minimumPriority :
  currentSuppressionMode w ≠ AllNotificationsEnabled →
  currentSuppressionMode w ≠ ApplicationNotificationsDisabled →
  currentSuppressionMode w ≠ SystemNotificationsDisabled →
  isEnabled w n minimumPriority = false.
Proof.
  intros H0 H1 H2. rewrite isEnabled_unfold.
  apply Z.eqb_neq in H0, H1, H2. rewrite H0, H1, H2. simpl.
  by rewrite andb_false_r.
Qed.


Lemma toBool_default_true (m : gmap string QVariant) key :
  toBool (valueOr m key (QBool true)) = negb (explicitlyFalse (m !! key)).
Proof.
  unfold valueOr, explicitlyFalse. destruct (m !! key); simpl; [|done].
  by rewrite negb_involutive.
Qed.

Lemma toBool_default_false (m : gmap string QVariant) key :
  toBool (valueOr m key (QBool false)) = hintSet (m !! key).
Proof. unfold valueOr, hintSet. by destruct (m !! key). Qed.

Lemma feedbackProperties_parameterSet n :
  feedbackProperties n = parameterSet n.
Proof.
  unfold feedbackProperties, parameterSet, ledDisabled, audioDisabled,
    vibrationDisabled, soundFileName.
  rewrite toBool_default_true, toBool_default_false, strip_file_prefix.
  generalize (withoutPrefix "file://"
                (toString (value (hints n) HINT_SOUND_FILE))) as file.
  intros file.
  destruct (explicitlyFalse _), (isEmpty (body n)), (isEmpty (summary n)),
    (hintSet _), (isEmpty (toString (value (hints n) HINT_ORIGIN_PACKAGE))),
    (isEmpty (toString (value (hints n) HINT_SOUND_FILE)));
    reflexivity.
Qed.

(** ** The dispatcher *)

(** C3: whatever came before, adding a live notification without progress
    first stops the events bound to it, one call each, and only then makes
    the calls that start effects; afterwards the events bound to it are
    those the calls of this very addition started, and no other; the
    bindings of other notifications stay. *)
Theorem addNotification_supersedes events w id key n player :
  notification (manager w) id = Some (key, n) →
  hasProgress n = false →
  ∃ stops starts,
    stops = map NgfStopId (bindings key (run events player))
    ∧ m_ngfClient (addNotification w id (run events player))
      = m_ngfClient (run events player) ++ stops ++ starts
    ∧ Forall (λ call, isPlay call = false) stops
    ∧ Forall (λ call, isStopId call = false) starts
    ∧ bindings key (addNotification w id (run events player))
      = rev (startedIds (m_ngfClient (run events player) ++ stops) starts)
    ∧ ∀ other, other ≠ key →
        bindings other (addNotification w id (run events player))
        = bindings other (run events player).
Proof.
  intros Hlive Hprogress.
  exists (map NgfStopId (bindings key (run events player))),
    (startCalls w n (run events player)).
  rewrite (addNotification_live w id key n _ Hlive Hprogress).
  unfold bindings. simpl.
  split; [done|]. split; [done|]. split.
  { apply Forall_forall. intros call Hcall.
    apply list_elem_of_fmap in Hcall as (eventId & -> & _). done. }
  split.
  { unfold startCalls, feedbackCalls, vibraCalls.
    apply Forall_app. split.
    - destruct (feedbackPlayed w n (run events player)); [|constructor].
      induction (feedbackItemsOf n) as [|item rest IH]; simpl.
      + constructor.
      + by repeat constructor.
    - destruct (vibraRequested w n); by repeat constructor. }
  split.
  - by rewrite eventIdsOf_app, eventIdsOf_own, eventIdsOf_entriesWithout,
      app_nil_r.
  - intros other Hother.
    rewrite eventIdsOf_app, eventIdsOf_foreign by done.
    by rewrite eventIdsOf_entriesWithout_ne.
Qed.

(** C4: removing a notification that is still in the store, with N events
    bound to it, makes N calls, each stopping one of these events, and
    leaves no event bound to it. *)
Theorem removeNotification_clears w id key n player N :
  notification (manager w) id = Some (key, n) →
  length (bindings key player) = N →
  ∃ stops,
    m_ngfClient (removeNotification w id player)
    = m_ngfClient player ++ stops
    ∧ length stops = N
    ∧ stops = map NgfStopId (bindings key player)
    ∧ bindings key (removeNotification w id player) = [].
Proof.
  intros Hlive HN. exists (map NgfStopId (bindings key player)).
  rewrite (removeNotification_live w id key n _ Hlive). simpl.
  split; [done|]. split; [by rewrite length_map|]. split; [done|].
  unfold bindings. simpl. apply eventIdsOf_entriesWithout.
Qed.

(** C5: adding an id that is not in the store, or whose notification
    reports progress, and removing an id that is not in the store, leave
    the player as it was: no binding changes and no call is made.  Both
    slots are functions defined on every id, world and player. *)
Theorem absent_or_progress_is_ignored w id player :
  (notification (manager w) id = None
   ∨ (∃ key n,
        notification (manager w) id = Some (key, n)
        ∧ hasProgress n = true) →
   addNotification w id player = player)
  ∧ (notification (manager w) id = None →
     removeNotification w id player = player).
Proof.
  split.
  - intros [Habsent|(key & n & Hlive & Hprogress)]; unfold addNotification.
    + by rewrite Habsent.
    + by rewrite Hlive, Hprogress.
  - intros Habsent. unfold removeNotification. by rewrite Habsent.
Qed.

(** What the parameter set holds under each of its five names. *)
Lemma parameterSet_lookup n :
  parameterSet n !! "media.leds"
  = (if ledDisabled n then Some (QBool false) else None)
  ∧ parameterSet n !! "media.audio"
    = (if audioDisabled n then Some (QBool false) else None)
  ∧ parameterSet n !! "media.vibra"
    = (if vibrationDisabled n then Some (QBool false) else None)
  ∧ parameterSet n !! "sound.filename" = QStr <$> soundFileName n
  ∧ parameterSet n !! "sound.enabled"
    = (λ _, QBool true) <$> soundFileName n.
Proof.
  unfold parameterSet.
  destruct (ledDisabled n), (audioDisabled n), (vibrationDisabled n),
    (soundFileName n); repeat split; reflexivity.
Qed.

Lemma isEmpty_true (s : string) : isEmpty s = true ↔ s = "".
Proof. by destruct s. Qed.

Lemma isEmpty_false (s : string) : isEmpty s = false ↔ s ≠ "".
Proof. by destruct s. Qed.

Lemma isEnabled_zero_of_critical_gate w n :
  currentSuppressionMode w = ApplicationNotificationsDisabled →
  isCritical n = false →
  ∀ minimumPriority, isEnabled w n minimumPriority = false.
Proof.
  intros Hmode Hcritical minimumPriority.
  rewrite isEnabled_unfold, Hmode, Hcritical. simpl.
  by rewrite andb_false_r.
Qed.

(** C6, as amended: for a live notification without progress whose vibrate
    hint is true and whose priority is below the minimum, when
    [isEnabled] holds at the minimum 0 the addition ends with stopping the
    effect "vibra" and starting it with no parameter, and the event started
    is bound to the notification; under app-notifications-disabled, with an
    urgency below 2 and a display-always hint that is not true, nothing is
    started at all. *)
Theorem vibration_bypasses_priority w id key n player :
  notification (manager w) id = Some (key, n) →
  hasProgress n = false →
  toBool (valueOr (hints n) HINT_VIBRA (QBool false)) = true →
  priority n < m_minimumPriority player →
  (isEnabled w n 0 = true →
   ∃ feedback rest,
     m_ngfClient (addNotification w id player)
     = m_ngfClient player ++ map NgfStopId (bindings key player)
       ++ feedback ++ [NgfStopEvent "vibra"; NgfPlay "vibra" ∅]
     ∧ bindings key (addNotification w id player)
       = Ngf_play_id
           (m_ngfClient player ++ map NgfStopId (bindings key player)
            ++ feedback ++ [NgfStopEvent "vibra"])
           "vibra" ∅
         :: rest)
  ∧ (currentSuppressionMode w = ApplicationNotificationsDisabled →
     urgency n < 2 →
     toBool (value (hints n) HINT_DISPLAY_ON) = false →
     m_ngfClient (addNotification w id player)
     = m_ngfClient player ++ map NgfStopId (bindings key player)
     ∧ bindings key (addNotification w id player) = []).
Proof.
  intros Hlive Hprogress Hvibra _.
  rewrite (addNotification_live w id key n _ Hlive Hprogress).
  unfold bindings. simpl. split.
  - intros Henabled. unfold startCalls, vibraRequested.
    rewrite Henabled, Hvibra. simpl.
    set (feedback := if feedbackPlayed w n player
                     then feedbackCalls (feedbackProperties n)
                            (feedbackItemsOf n)
                     else []).
    exists feedback, (rev (startedIds
                             (m_ngfClient player
                              ++ map NgfStopId
                                   (eventIdsOf key (m_idToEventId player)))
                             feedback)).
    split; [done|].
    rewrite eventIdsOf_app, eventIdsOf_own, eventIdsOf_entriesWithout,
      app_nil_r.
    unfold vibraCalls. rewrite startedIds_app. simpl.
    rewrite rev_app_distr. simpl. do 2 f_equal. flatten_calls.
  - intros Hmode Hurgency Hdisplay.
    assert (isCritical n = false) as Hcritical.
    { unfold isCritical. rewrite Hdisplay, orb_false_r.
      apply Z.leb_gt. lia. }
    unfold startCalls, feedbackPlayed, vibraRequested.
    rewrite !(isEnabled_zero_of_critical_gate w n Hmode Hcritical).
    simpl. by rewrite !app_nil_r, eventIdsOf_entriesWithout.
Qed.

(** C7, as amended: for a live notification without progress, with
    feedback items and enabled at the configured minimum, every feedback
    item is started with one parameter set, in which the LED is disabled
    exactly when body and summary are empty and the LED hint is not there
    with a false value, audio is disabled exactly when the suppress-sound
    hint is true, vibration is disabled exactly when the origin-package hint
    has a text, and, exactly when the text of the sound-file hint is not
    empty, that text without a leading "file://" is the sound filename and
    sound is enabled. *)
Theorem feedback_parameter_set w id key n player :
  notification (manager w) id = Some (key, n) →
  hasProgress n = false →
  feedbackItemsOf n ≠ [] →
  isEnabled w n (m_minimumPriority player) = true →
  m_ngfClient (addNotification w id player)
  = m_ngfClient player ++ map NgfStopId (bindings key player)
    ++ feedbackCalls (parameterSet n) (feedbackItemsOf n)
    ++ (if vibraRequested w n then vibraCalls else [])
  ∧ (parameterSet n !! "media.leds" = Some (QBool false)
     ↔ body n = "" ∧ summary n = ""
       ∧ ¬ ∃ v, hints n !! HINT_LED_DISABLED_WITHOUT_BODY_AND_SUMMARY
                = Some v ∧ toBool v = false)
  ∧ (parameterSet n !! "media.audio" = Some (QBool false)
     ↔ ∃ v, hints n !! HINT_SUPPRESS_SOUND = Some v ∧ toBool v = true)
  ∧ (parameterSet n !! "media.vibra" = Some (QBool false)
     ↔ toString (value (hints n) HINT_ORIGIN_PACKAGE) ≠ "")
  ∧ (toString (value (hints n) HINT_SOUND_FILE) ≠ "" →
     parameterSet n !! "sound.filename"
     = Some (QStr (withoutPrefix "file://"
                     (toString (value (hints n) HINT_SOUND_FILE))))
     ∧ parameterSet n !! "sound.enabled" = Some (QBool true))
  ∧ (toString (value (hints n) HINT_SOUND_FILE) = "" →
     parameterSet n !! "sound.filename" = None
     ∧ parameterSet n !! "sound.enabled" = None)
  ∧ ∀ name, is_Some (parameterSet n !! name) →
      name ∈ ["media.leds"; "media.audio"; "media.vibra"; "sound.filename";
              "sound.enabled"].
Proof.
  intros Hlive Hprogress Hitems Henabled.
  destruct (parameterSet_lookup n) as (Hleds & Haudio & Hvibra & Hfile & Hon).
  split.
  { rewrite (addNotification_live w id key n _ Hlive Hprogress). simpl.
    unfold startCalls, feedbackPlayed. rewrite Henabled.
    destruct (feedbackItemsOf n) as [|item rest] eqn:Hlist; [done|]. simpl.
    rewrite feedbackProperties_parameterSet. flatten_calls. }
  split.
  { rewrite Hleds. unfold ledDisabled, explicitlyFalse.
    rewrite <- !isEmpty_true.
    destruct (isEmpty (body n)), (isEmpty (summary n)); simpl;
      try (split; [done | intros (? & ? & _); done]).
    destruct (hints n !! HINT_LED_DISABLED_WITHOUT_BODY_AND_SUMMARY)
      as [v|]; simpl.
    - destruct (toBool v) eqn:Hv; simpl.
      + split; [|done]. intros _. repeat split. intros (v' & [= <-] & Hv').
        congruence.
      + split; [done|]. intros (_ & _ & Hnot). destruct Hnot. eauto.
    - split; [|done]. intros _. repeat split. by intros (v & ? & _). }
  split.
  { rewrite Haudio. unfold audioDisabled, hintSet.
    destruct (hints n !! HINT_SUPPRESS_SOUND) as [v|]; simpl.
    - destruct (toBool v) eqn:Hv.
      + split; [eauto | done].
      + split; [done|]. intros (v' & [= <-] & Hv'). congruence.
    - split; [done|]. by intros (v & ? & _). }
  split.
  { rewrite Hvibra. unfold vibrationDisabled. rewrite <- isEmpty_false.
    by destruct (isEmpty _). }
  split.
  { intros Htext. apply isEmpty_false in Htext.
    rewrite Hfile, Hon. unfold soundFileName. by rewrite Htext. }
  split.
  { intros Htext. apply isEmpty_true in Htext.
    rewrite Hfile, Hon. unfold soundFileName. by rewrite Htext. }
  intros name [v Hname]. unfold parameterSet in Hname.
  repeat (apply lookup_union_Some_raw in Hname
          as [Hname|[_ Hname]]);
    repeat match goal with
    | H : (if ?c then _ else _) !! _ = Some _ |- _ => destruct c
    | H : (match ?c with Some _ => _ | None => _ end) !! _ = Some _ |- _ =>
        destruct c
    | H : ∅ !! _ = Some _ |- _ => by rewrite lookup_empty in H
    | H : {[ _ := _ ]} !! _ = Some _ |- _ =>
        apply lookup_singleton_Some in H as [<- _]
    | H : <[ _ := _ ]> _ !! _ = Some _ |- _ =>
        apply lookup_insert_Some in H as [[<- _]|[_ H]]
    end; set_solver.
Qed.

(** C8: the feedback hint is cut at the commas and the empty parts are
    dropped; when no item is left, the addition of a live notification
    without progress makes no call for a feedback item, whatever the
    sound-file hint and [isEnabled] say: after the stops of the old events
    comes nothing but the vibration request, when there is one, and that
    carries no parameter. *)
Theorem empty_feedback_list_plays_nothing w id key n player :
  notification (manager w) id = Some (key, n) →
  hasProgress n = false →
  (∀ text,
     split "," text = filter nonEmpty (segments "," text)
     ∧ joined "," (segments "," text) = text
     ∧ Forall (λ part, separatorFree "," part = true) (segments "," text))
  ∧ feedbackItemsOf n = split "," (toString (value (hints n) HINT_FEEDBACK))
  ∧ (feedbackItemsOf n = [] →
     m_ngfClient (addNotification w id player)
     = m_ngfClient player ++ map NgfStopId (bindings key player)
       ++ (if vibraRequested w n then vibraCalls else [])
     ∧ ∀ event properties,
         NgfPlay event properties
         ∈ map NgfStopId (bindings key player)
           ++ (if vibraRequested w n then vibraCalls else []) →
         event = "vibra" ∧ properties = ∅).
Proof.
  intros Hlive Hprogress. split.
  { intros text. split; [apply split_segments|].
    split; [apply joined_segments | apply segments_separatorFree]. }
  split; [done|]. intros Hitems. split.
  - rewrite (addNotification_live w id key n _ Hlive Hprogress). simpl.
    unfold startCalls, feedbackPlayed. rewrite Hitems. simpl.
    by rewrite andb_false_r.
  - intros event properties Hcall.
    apply elem_of_app in Hcall as [Hcall|Hcall].
    + apply list_elem_of_fmap in Hcall as (eventId & [=] & _).
    + destruct (vibraRequested w n); [|by apply elem_of_nil in Hcall].
      unfold vibraCalls in Hcall.
      apply elem_of_cons in Hcall as [[=]|Hcall].
      apply list_elem_of_singleton in Hcall as [= -> ->]. done.
Qed.

End Dispatch.

(** ** Beyond the policy and the two slots taken one at a time *)

Lemma entriesWithout_again key entries :
  entriesWithout key (entriesWithout key entries)
  = entriesWithout key entries.
Proof.
  unfold entriesWithout.
  induction entries as [|[k eventId] rest IH]; [done|].
  rewrite (filter_cons _ (k, eventId)). simpl.
  destruct (decide (k ≠ key)) as [Hne|Heq]; [|done].
  by rewrite filter_cons_True, IH.
Qed.

Lemma eventIdsOf_own_or_foreign key other (eventIds : list Z) :
  eventIdsOf other (map (pair key) eventIds) ⊆ eventIds.
Proof.
  destruct (decide (key = other)) as [->|Hne].
  - by rewrite eventIdsOf_own.
  - rewrite eventIdsOf_foreign by done. apply list_subseteq_nil.
Qed.

Lemma eventIdsOf_entriesWithout_subseteq key other entries :
  eventIdsOf other (entriesWithout key entries) ⊆ eventIdsOf other entries.
Proof.
  destruct (decide (other = key)) as [->|Hne].
  - rewrite eventIdsOf_entriesWithout. apply list_subseteq_nil.
  - by rewrite eventIdsOf_entriesWithout_ne.
Qed.

Lemma Paired_app front back :
  Paired front → Paired back → Paired (front ++ back).
Proof.
  intros Hfront Hback. induction Hfront; simpl; [done| |]; by constructor.
Qed.

Lemma Paired_stops (eventIds : list Z) : Paired (map NgfStopId eventIds).
Proof. induction eventIds; simpl; by constructor. Qed.

Lemma Paired_feedbackCalls properties feedbackItems :
  Paired (feedbackCalls properties feedbackItems).
Proof. induction feedbackItems; simpl; by constructor. Qed.

Lemma Paired_lookup calls i event properties :
  Paired calls →
  calls !! i = Some (NgfPlay event properties) →
  ∃ j, i = S j ∧ calls !! j = Some (NgfStopEvent event).
Proof.
  intros Hpaired. revert i.
  induction Hpaired as [|eventId rest _ IH|event' properties' rest _ IH];
    intros i Hplay.
  - done.
  - destruct i as [|i]; [done|]. simpl in Hplay.
    destruct (IH i Hplay) as (j & -> & Hstop). by exists (S j).
  - destruct i as [|[|i]]; [done| |].
    + injection Hplay as -> _. by exists 0%nat.
    + simpl in Hplay. destruct (IH i Hplay) as (j & -> & Hstop).
      by exists (S (S j)).
Qed.

Lemma split_items_named sep text :
  Forall (λ item, item ≠ "" ∧ separatorFree sep item = true)
    (split sep text).
Proof.
  rewrite split_segments. apply Forall_forall. intros item Hitem.
  apply list_elem_of_filter in Hitem as [Hnonempty Hsegment].
  split.
  - unfold nonEmpty in Hnonempty. by destruct item.
  - pose proof (segments_separatorFree sep text) as Hfree.
    rewrite Forall_forall in Hfree. by apply Hfree.
Qed.

Section Coverage.

Context {ext : Externals}.

Lemma run_invariant (P : NotificationFeedbackPlayer → Prop) :
  (∀ player event, P player → P (handle player event)) →
  ∀ events player, P player → P (run events player).
Proof.
  intros Hstep events. unfold run.
  induction events as [|event rest IH]; intros player Hplayer; [done|].
  simpl. by apply IH, Hstep.
Qed.

Lemma startCalls_threshold w n player player' :
  m_minimumPriority player = m_minimumPriority player' →
  startCalls w n player = startCalls w n player'.
Proof.
  intros Hsame. unfold startCalls, feedbackPlayed. by rewrite Hsame.
Qed.

Lemma startedIds_length history history' calls :
  length (startedIds history calls) = length (startedIds history' calls).
Proof.
  revert history history'.
  induction calls as [|call rest IH]; intros history history'; [done|].
  destruct call; simpl; auto.
Qed.

Lemma startedIds_feedbackCalls_length history properties feedbackItems :
  length (startedIds history (feedbackCalls properties feedbackItems))
  = length feedbackItems.
Proof.
  revert history.
  induction feedbackItems as [|item rest IH]; intros history; [done|].
  simpl. by rewrite IH.
Qed.

Lemma Paired_startCalls w n player : Paired (startCalls w n player).
Proof.
  unfold startCalls. apply Paired_app.
  - destruct (feedbackPlayed w n player);
      [apply Paired_feedbackCalls | constructor].
  - destruct (vibraRequested w n); repeat constructor.
Qed.

Lemma namedPlay_startCalls w n player :
  Forall namedPlay (startCalls w n player).
Proof.
  unfold startCalls. apply Forall_app. split.
  - destruct (feedbackPlayed w n player); [|constructor].
    pose proof (split_items_named "," (toString (value (hints n) HINT_FEEDBACK)))
      as Hitems.
    fold (feedbackItemsOf n) in Hitems.
    induction Hitems as [|item rest Hitem _ IH]; simpl; [constructor|].
    constructor; [exact I|]. constructor; [exact Hitem | exact IH].
  - destruct (vibraRequested w n); [|constructor].
    constructor; [exact I|]. constructor; [|constructor]. by split.
Qed.

(** What an event does to the client and to the entries: nothing, or what
    an addition does, or what a removal does. *)
Lemma handle_cases player event :
  (m_ngfClient (handle player event) = m_ngfClient player
   ∧ m_idToEventId (handle player event) = m_idToEventId player)
  ∨ (∃ w key n,
       m_ngfClient (handle player event)
       = m_ngfClient player ++ map NgfStopId (bindings key player)
         ++ startCalls w n player
       ∧ m_idToEventId (handle player event)
         = map (pair key)
             (rev (startedIds
                     (m_ngfClient player
                      ++ map NgfStopId (bindings key player))
                     (startCalls w n player)))
           ++ entriesWithout key (m_idToEventId player))
  ∨ (∃ key,
       m_ngfClient (handle player event)
       = m_ngfClient player ++ map NgfStopId (bindings key player)
       ∧ m_idToEventId (handle player event)
         = entriesWithout key (m_idToEventId player)).
Proof.
  destruct event as [w id|w id|minimumPriority]; simpl.
  - destruct (notification (manager w) id) as [[key n]|] eqn:Hlive.
    + destruct (hasProgress n) eqn:Hprogress.
      * left. unfold addNotification. by rewrite Hlive, Hprogress.
      * right. left. exists w, key, n.
        by rewrite (addNotification_live w id key n _ Hlive Hprogress).
    + left. unfold addNotification. by rewrite Hlive.
  - destruct (notification (manager w) id) as [[key n]|] eqn:Hlive.
    + right. right. exists key.
      by rewrite (removeNotification_live w id key n _ Hlive).
    + left. unfold removeNotification. by rewrite Hlive.
  - by left.
Qed.

(** X1: lowering the minimum priority never disables a notification. *)
Theorem isEnabled_lower_threshold w n minimumPriority lower :
  lower ≤ minimumPriority →
  isEnabled w n minimumPriority = true →
  isEnabled w n lower = true.
Proof.
  intros Hlower. rewrite !isEnabled_unfold.
  rewrite !andb_true_iff, !orb_true_iff, !Z.leb_le.
  intros [[Hshown [Hpriority|Hcritical]] Hmode]; repeat split; auto.
  left. lia.
Qed.

(** X2: for a critical notification the minimum priority plays no part. *)
Theorem isEnabled_critical_any_threshold w n minimumPriority other :
  isCritical n = true →
  isEnabled w n minimumPriority = isEnabled w n other.
Proof.
  intros Hcritical. rewrite !isEnabled_unfold, Hcritical.
  by rewrite !orb_true_r.
Qed.

(** X3: a notification of a negative priority that is not critical is not
    enabled at the minimum 0, so its vibrate hint starts nothing: after the
    stops of its old events an addition makes the calls of the feedback
    items only. *)
Theorem negative_priority_never_vibrates w id key n player :
  notification (manager w) id = Some (key, n) →
  hasProgress n = false →
  priority n < 0 →
  isCritical n = false →
  isEnabled w n 0 = false
  ∧ m_ngfClient (addNotification w id player)
    = m_ngfClient player ++ map NgfStopId (bindings key player)
      ++ (if feedbackPlayed w n player
          then feedbackCalls (feedbackProperties n) (feedbackItemsOf n)
          else []).
Proof.
  intros Hlive Hprogress Hpriority Hcritical.
  assert (isEnabled w n 0 = false) as Hdisabled.
  { rewrite isEnabled_unfold, Hcritical.
    replace (0 <=? priority n) with false by (symmetry; apply Z.leb_gt; lia).
    simpl. by rewrite andb_false_r. }
  split; [done|].
  rewrite (addNotification_live w id key n _ Hlive Hprogress). simpl.
  unfold startCalls, vibraRequested. rewrite Hdisabled. simpl.
  by rewrite app_nil_r.
Qed.

(** X4: adding a notification that is hidden or restored stops the events
    bound to it and starts nothing; no event is bound to it afterwards. *)
Theorem addNotification_silences_hidden w id key n player :
  notification (manager w) id = Some (key, n) →
  hasProgress n = false →
  hidden n = true ∨ restored n = true →
  m_ngfClient (addNotification w id player)
  = m_ngfClient player ++ map NgfStopId (bindings key player)
  ∧ bindings key (addNotification w id player) = [].
Proof.
  intros Hlive Hprogress Hhidden.
  assert (∀ minimumPriority, isEnabled w n minimumPriority = false)
    as Hdisabled.
  { intros minimumPriority. rewrite isEnabled_unfold.
    destruct Hhidden as [->| ->]; [done|]. by rewrite orb_true_r. }
  rewrite (addNotification_live w id key n _ Hlive Hprogress).
  unfold bindings, startCalls, feedbackPlayed, vibraRequested. simpl.
  rewrite !Hdisabled. simpl.
  by rewrite !app_nil_r, eventIdsOf_entriesWithout.
Qed.

(** X5: a second removal of the same id in the same world changes
    nothing. *)
Theorem removeNotification_twice w id player :
  removeNotification w id (removeNotification w id player)
  = removeNotification w id player.
Proof.
  destruct (notification (manager w) id) as [[key n]|] eqn:Hlive.
  - rewrite !(removeNotification_live w id key n _ Hlive).
    unfold bindings. simpl.
    by rewrite eventIdsOf_entriesWithout, entriesWithout_again, app_nil_r.
  - unfold removeNotification. by rewrite Hlive.
Qed.

(** X6: a removal leaves the events bound to every other notification, and
    the threshold, as they were. *)
Theorem removeNotification_keeps_others w id player other :
  (∀ key n, notification (manager w) id = Some (key, n) → other ≠ key) →
  bindings other (removeNotification w id player) = bindings other player
  ∧ minimumPriority (removeNotification w id player)
    = minimumPriority player.
Proof.
  intros Hother.
  destruct (notification (manager w) id) as [[key n]|] eqn:Hlive.
  - rewrite (removeNotification_live w id key n _ Hlive).
    unfold bindings, minimumPriority. simpl. split; [|done].
    apply eventIdsOf_entriesWithout_ne. by apply (Hother key n).
  - unfold removeNotification. by rewrite Hlive.
Qed.

(** X7: a removal that follows an addition of the same object stops, after
    the calls of the addition, exactly the events the addition started,
    the newest first, and leaves none bound. *)
Theorem removal_stops_what_addition_started w w' id key n n' player :
  notification (manager w) id = Some (key, n) →
  hasProgress n = false →
  notification (manager w') id = Some (key, n') →
  m_ngfClient (removeNotification w' id (addNotification w id player))
  = m_ngfClient (addNotification w id player)
    ++ map NgfStopId
         (rev (startedIds
                 (m_ngfClient player
                  ++ map NgfStopId (bindings key player))
                 (startCalls w n player)))
  ∧ bindings key (removeNotification w' id (addNotification w id player))
    = [].
Proof.
  intros Hlive Hprogress Hlive'.
  rewrite (removeNotification_live w' id key n' _ Hlive').
  rewrite (addNotification_live w id key n _ Hlive Hprogress).
  unfold bindings. simpl. split.
  - by rewrite eventIdsOf_app, eventIdsOf_own, eventIdsOf_entriesWithout,
      app_nil_r.
  - apply eventIdsOf_entriesWithout.
Qed.

(** X8: whatever events reach a player fresh from its constructor, every
    event id bound to a notification is one that [play] answered with on
    this client. *)
Theorem bindings_were_started events key :
  bindings key (run events newPlayer)
  ⊆ startedIds [] (m_ngfClient (run events newPlayer)).
Proof.
  revert key.
  apply (run_invariant
           (λ player, ∀ key,
              bindings key player ⊆ startedIds [] (m_ngfClient player)));
    [|intros key eventId Hbound; by apply elem_of_nil in Hbound].
  intros player event Hplayer other eventId. unfold bindings in *.
  destruct (handle_cases player event)
    as [[-> ->]|[(w & key & n & -> & ->)|(key & -> & ->)]].
  - apply Hplayer.
  - rewrite eventIdsOf_app, !startedIds_app, startedIds_stops. simpl.
    rewrite !elem_of_app. intros [Hnew|Hold].
    + right. apply eventIdsOf_own_or_foreign in Hnew.
      by apply list_elem_of_In, in_rev, list_elem_of_In in Hnew.
    + left.
      exact (Hplayer other eventId
               (eventIdsOf_entriesWithout_subseteq key other _ eventId Hold)).
  - rewrite startedIds_app, startedIds_stops, app_nil_r. intros Hold.
    exact (Hplayer other eventId
             (eventIdsOf_entriesWithout_subseteq key other _ eventId Hold)).
Qed.

(** X9: whatever events reach a player fresh from its constructor, every
    start of an effect comes right after the stop of the effect of the
    same name. *)
Theorem play_follows_stop events i event properties :
  m_ngfClient (run events newPlayer) !! i = Some (NgfPlay event properties) →
  ∃ j, i = S j
       ∧ m_ngfClient (run events newPlayer) !! j = Some (NgfStopEvent event).
Proof.
  apply Paired_lookup.
  apply (run_invariant (λ player, Paired (m_ngfClient player)));
    [|constructor].
  intros player ev Hplayer.
  destruct (handle_cases player ev)
    as [[-> _]|[(w & key & n & -> & _)|(key & -> & _)]]; [done| |].
  - apply Paired_app; [done|].
    apply Paired_app; [apply Paired_stops | apply Paired_startCalls].
  - apply Paired_app; [done | apply Paired_stops].
Qed.

(** X10: whatever events reach a player fresh from its constructor, no
    effect is started under an empty name or a name with a comma. *)
Theorem played_names_are_items events :
  Forall namedPlay (m_ngfClient (run events newPlayer)).
Proof.
  apply (run_invariant (λ player, Forall namedPlay (m_ngfClient player)));
    [|constructor].
  intros player ev Hplayer.
  assert (∀ eventIds : list Z, Forall namedPlay (map NgfStopId eventIds))
    as Hstops.
  { intros eventIds. induction eventIds; simpl; by constructor. }
  destruct (handle_cases player ev)
    as [[-> _]|[(w & key & n & -> & _)|(key & -> & _)]]; [done| |].
  - rewrite !Forall_app. repeat split; [done|apply Hstops|].
    apply namedPlay_startCalls.
  - rewrite Forall_app. split; [done | apply Hstops].
Qed.

(** X11: after the addition of a live notification without progress, the
    number of events bound to it is the number of feedback items, when they
    are played, plus one when the vibration request is honoured, however
    many were bound before. *)
Theorem addNotification_binding_count w id key n player :
  notification (manager w) id = Some (key, n) →
  hasProgress n = false →
  length (bindings key (addNotification w id player))
  = ((if feedbackPlayed w n player then length (feedbackItemsOf n) else 0)
     + (if vibraRequested w n then 1 else 0))%nat.
Proof.
  intros Hlive Hprogress.
  rewrite (addNotification_live w id key n _ Hlive Hprogress).
  unfold bindings. simpl.
  rewrite eventIdsOf_app, eventIdsOf_own, eventIdsOf_entriesWithout,
    app_nil_r, length_rev.
  unfold startCalls. rewrite startedIds_app, length_app.
  destruct (feedbackPlayed w n player), (vibraRequested w n); simpl;
    rewrite ?startedIds_feedbackCalls_length; done.
Qed.

(** X12: adding the same notification again in the same world stops
    exactly the events the first addition bound, makes the start calls of
    the first addition again, and binds as many events as before. *)
Theorem repeated_addition w id key n player :
  notification (manager w) id = Some (key, n) →
  hasProgress n = false →
  m_ngfClient (addNotification w id (addNotification w id player))
  = m_ngfClient (addNotification w id player)
    ++ map NgfStopId (bindings key (addNotification w id player))
    ++ startCalls w n player
  ∧ length (bindings key (addNotification w id (addNotification w id player)))
    = length (bindings key (addNotification w id player)).
Proof.
  intros Hlive Hprogress.
  rewrite (addNotification_live w id key n (addNotification w id player)
             Hlive Hprogress).
  assert (startCalls w n (addNotification w id player)
          = startCalls w n player) as ->.
  { apply startCalls_threshold.
    by rewrite (addNotification_live w id key n _ Hlive Hprogress). }
  split; [done|].
  unfold bindings at 1. simpl.
  rewrite eventIdsOf_app, eventIdsOf_own, eventIdsOf_entriesWithout,
    app_nil_r, length_rev.
  rewrite (addNotification_live w id key n player Hlive Hprogress) at 3.
  unfold bindings at 2. simpl.
  rewrite eventIdsOf_app, eventIdsOf_own, eventIdsOf_entriesWithout,
    app_nil_r, length_rev.
  apply startedIds_length.
Qed.

(** X13: when the text of the sound-file hint starts with "file://", the
    sound filename is what follows these seven characters, be it empty or
    another "file://", and sound is enabled; a text that is not empty and
    does not start so is the sound filename as it is. *)
Theorem sound_file_prefix_taken_once n rest :
  (toString (value (hints n) HINT_SOUND_FILE) = "file://" +:+ rest →
   feedbackProperties n !! "sound.filename" = Some (QStr rest)
   ∧ feedbackProperties n !! "sound.enabled" = Some (QBool true))
  ∧ (toString (value (hints n) HINT_SOUND_FILE) = rest →
     rest ≠ "" →
     startsWith rest "file://" = false →
     feedbackProperties n !! "sound.filename" = Some (QStr rest)
     ∧ feedbackProperties n !! "sound.enabled" = Some (QBool true)).
Proof.
  rewrite feedbackProperties_parameterSet.
  destruct (parameterSet_lookup n) as (_ & _ & _ & -> & ->).
  unfold soundFileName. split.
  - intros ->. done.
  - intros -> Hrest Hprefix. apply isEmpty_false in Hrest. rewrite Hrest.
    rewrite <- strip_file_prefix, Hprefix. done.
Qed.

(** X14: notification events never change the threshold: after any events
    it is the one set last, or the one the player had. *)
Theorem threshold_follows_settings events player :
  minimumPriority (run events player)
  = lastThreshold events (minimumPriority player).
Proof.
  unfold run, minimumPriority. revert player.
  induction events as [|event rest IH]; intros player; [done|].
  simpl. rewrite IH. destruct event as [w id|w id|threshold]; simpl.
  - f_equal. unfold addNotification.
    destruct (notification (manager w) id) as [[key n]|]; [|done].
    destruct (hasProgress n); simpl; [done|].
    rewrite stopFeedback_spec.
    repeat match goal with
           | |- context [if ?c then _ else _] => destruct c
           | |- context [playFeedback ?a ?b ?c ?d ?e] =>
               rewrite (playFeedback_spec a b c d e)
           end; done.
  - f_equal. unfold removeNotification.
    destruct (notification (manager w) id) as [[key n]|]; [|done].
    by rewrite stopFeedback_spec.
  - done.
Qed.

End Coverage.

(** ** The statements at work on the Nemo device *)

#[local] Existing Instance nemo.

Lemma isEnabled_policy_critical_under_app_disabled :
  hidden alarm = false
  ∧ restored alarm = false
  ∧ currentSuppressionMode (worldWith [] (previewsDisabled (QUInt 1)))
    = modeCode ModeAppNotificationsDisabled
  ∧ (isEnabled (worldWith [] (previewsDisabled (QUInt 1))) alarm 3 = true
     ↔ (3 ≤ priority alarm ∨ isCritical alarm = true)
       ∧ permits ModeAppNotificationsDisabled alarm = true)
  ∧ (isCritical alarm = true
     ↔ 2 ≤ urgency alarm
       ∨ toBool (value (hints alarm) HINT_DISPLAY_ON) = true).
Proof.
  split; [reflexivity|]. split; [reflexivity|]. split; [reflexivity|].
  apply (isEnabled_policy (worldWith [] (previewsDisabled (QUInt 1)))
           alarm 3 ModeAppNotificationsDisabled); reflexivity.
Defined.

Lemma isEnabled_hidden_alarm :
  (hidden hiddenAlarm = true ∨ restored hiddenAlarm = true)
  ∧ isEnabled (worldWithoutWindow []) hiddenAlarm 0 = false.
Proof.
  split; [left; reflexivity|].
  apply (isEnabled_hidden_or_restored (worldWithoutWindow []) hiddenAlarm 0).
  left. reflexivity.
Defined.

Lemma isEnabled_with_text_property :
  currentSuppressionMode (worldWith [] (previewsDisabled (QStr "none")))
  = AllNotificationsEnabled
  ∧ ∀ n minimumPriority,
      isEnabled (worldWith [] (previewsDisabled (QStr "none"))) n
        minimumPriority
      = negb (hidden n || restored n)
        && ((minimumPriority <=? priority n) || isCritical n).
Proof.
  apply (isEnabled_without_suppression_property
           (worldWith [] (previewsDisabled (QStr "none")))).
  right. exists {| windowProperties :=
                     list_to_map (previewsDisabled (QStr "none")) |}.
  split; [reflexivity|]. right. exists (QStr "none").
  split; reflexivity.
Defined.

Lemma isEnabled_mode_seven :
  currentSuppressionMode (worldWith [] (previewsDisabled (QUInt 7)))
  ≠ AllNotificationsEnabled
  ∧ currentSuppressionMode (worldWith [] (previewsDisabled (QUInt 7)))
    ≠ ApplicationNotificationsDisabled
  ∧ currentSuppressionMode (worldWith [] (previewsDisabled (QUInt 7)))
    ≠ SystemNotificationsDisabled
  ∧ isEnabled (worldWith [] (previewsDisabled (QUInt 7))) alarm 0 = false.
Proof.
  split; [discriminate|]. split; [discriminate|]. split; [discriminate|].
  apply (isEnabled_other_mode (worldWith [] (previewsDisabled (QUInt 7)))
           alarm 0); discriminate.
Defined.

Lemma chat_update_supersedes :
  notification (manager (worldWith [(1, (7%positive, chatUpdated))] [])) 1
  = Some (7%positive, chatUpdated)
  ∧ hasProgress chatUpdated = false
  ∧ ∃ stops starts,
      stops
      = map NgfStopId
          (bindings 7%positive
             (run [NotificationAdded
                     (worldWith [(1, (7%positive, chat))] []) 1]
                (playerWith 3 [])))
      ∧ m_ngfClient
          (addNotification (worldWith [(1, (7%positive, chatUpdated))] []) 1
             (run [NotificationAdded
                     (worldWith [(1, (7%positive, chat))] []) 1]
                (playerWith 3 [])))
        = m_ngfClient
            (run [NotificationAdded
                    (worldWith [(1, (7%positive, chat))] []) 1]
               (playerWith 3 []))
          ++ stops ++ starts
      ∧ Forall (λ call, isPlay call = false) stops
      ∧ Forall (λ call, isStopId call = false) starts
      ∧ bindings 7%positive
          (addNotification (worldWith [(1, (7%positive, chatUpdated))] []) 1
             (run [NotificationAdded
                     (worldWith [(1, (7%positive, chat))] []) 1]
                (playerWith 3 [])))
        = rev (startedIds
                 (m_ngfClient
                    (run [NotificationAdded
                            (worldWith [(1, (7%positive, chat))] []) 1]
                       (playerWith 3 []))
                  ++ stops)
                 starts)
      ∧ ∀ other, other ≠ 7%positive →
          bindings other
            (addNotification
               (worldWith [(1, (7%positive, chatUpdated))] []) 1
               (run [NotificationAdded
                       (worldWith [(1, (7%positive, chat))] []) 1]
                  (playerWith 3 [])))
          = bindings other
              (run [NotificationAdded
                      (worldWith [(1, (7%positive, chat))] []) 1]
                 (playerWith 3 [])).
Proof.
  split; [reflexivity|]. split; [reflexivity|].
  apply (addNotification_supersedes
           [NotificationAdded (worldWith [(1, (7%positive, chat))] []) 1]
           (worldWith [(1, (7%positive, chatUpdated))] []) 1 7%positive
           chatUpdated (playerWith 3 [])); reflexivity.
Defined.

Lemma chat_removal_clears :
  notification (manager (worldWith [(1, (7%positive, chat))] [])) 1
  = Some (7%positive, chat)
  ∧ length (bindings 7%positive (playerWith 3 [(7%positive, 2); (7%positive, 1)]))
    = 2%nat
  ∧ ∃ stops,
      m_ngfClient
        (removeNotification (worldWith [(1, (7%positive, chat))] []) 1
           (playerWith 3 [(7%positive, 2); (7%positive, 1)]))
      = m_ngfClient (playerWith 3 [(7%positive, 2); (7%positive, 1)])
        ++ stops
      ∧ length stops = 2%nat
      ∧ stops
        = map NgfStopId
            (bindings 7%positive
               (playerWith 3 [(7%positive, 2); (7%positive, 1)]))
      ∧ bindings 7%positive
          (removeNotification (worldWith [(1, (7%positive, chat))] []) 1
             (playerWith 3 [(7%positive, 2); (7%positive, 1)]))
        = [].
Proof.
  split; [reflexivity|]. split; [reflexivity|].
  apply (removeNotification_clears (worldWith [(1, (7%positive, chat))] [])
           1 7%positive chat
           (playerWith 3 [(7%positive, 2); (7%positive, 1)]) 2);
    reflexivity.
Defined.

Lemma absent_and_transfer_are_ignored :
  notification (manager (worldWith [(1, (7%positive, transfer))] [])) 4
  = None
  ∧ notification (manager (worldWith [(1, (7%positive, transfer))] [])) 1
    = Some (7%positive, transfer)
  ∧ hasProgress transfer = true
  ∧ addNotification (worldWith [(1, (7%positive, transfer))] []) 4
      (playerWith 3 [(7%positive, 2)])
    = playerWith 3 [(7%positive, 2)]
  ∧ addNotification (worldWith [(1, (7%positive, transfer))] []) 1
      (playerWith 3 [(7%positive, 2)])
    = playerWith 3 [(7%positive, 2)]
  ∧ removeNotification (worldWith [(1, (7%positive, transfer))] []) 4
      (playerWith 3 [(7%positive, 2)])
    = playerWith 3 [(7%positive, 2)].
Proof.
  split; [reflexivity|]. split; [reflexivity|]. split; [reflexivity|].
  split.
  { destruct (absent_or_progress_is_ignored
                (worldWith [(1, (7%positive, transfer))] []) 4
                (playerWith 3 [(7%positive, 2)])) as [Hadd _].
    apply Hadd. left. reflexivity. }
  split.
  { destruct (absent_or_progress_is_ignored
                (worldWith [(1, (7%positive, transfer))] []) 1
                (playerWith 3 [(7%positive, 2)])) as [Hadd _].
    apply Hadd. right. exists 7%positive, transfer. split; reflexivity. }
  destruct (absent_or_progress_is_ignored
              (worldWith [(1, (7%positive, transfer))] []) 4
              (playerWith 3 [(7%positive, 2)])) as [_ Hremove].
  apply Hremove. reflexivity.
Defined.

Lemma buzz_vibrates_below_minimum :
  (notification (manager (worldWithoutWindow [(1, (7%positive, buzz))])) 1
   = Some (7%positive, buzz)
   ∧ hasProgress buzz = false
   ∧ toBool (valueOr (hints buzz) HINT_VIBRA (QBool false)) = true
   ∧ priority buzz < m_minimumPriority (playerWith 3 [(7%positive, 5)])
   ∧ isEnabled (worldWithoutWindow [(1, (7%positive, buzz))]) buzz 0 = true
   ∧ ∃ feedback rest,
       m_ngfClient
         (addNotification (worldWithoutWindow [(1, (7%positive, buzz))]) 1
            (playerWith 3 [(7%positive, 5)]))
       = m_ngfClient (playerWith 3 [(7%positive, 5)])
         ++ map NgfStopId
              (bindings 7%positive (playerWith 3 [(7%positive, 5)]))
         ++ feedback ++ [NgfStopEvent "vibra"; NgfPlay "vibra" ∅]
       ∧ bindings 7%positive
           (addNotification (worldWithoutWindow [(1, (7%positive, buzz))]) 1
              (playerWith 3 [(7%positive, 5)]))
         = Ngf_play_id
             (m_ngfClient (playerWith 3 [(7%positive, 5)])
              ++ map NgfStopId
                   (bindings 7%positive (playerWith 3 [(7%positive, 5)]))
              ++ feedback ++ [NgfStopEvent "vibra"])
             "vibra" ∅
           :: rest)
  ∧ (currentSuppressionMode
       (worldWith [(1, (7%positive, buzz))] (previewsDisabled (QUInt 1)))
     = ApplicationNotificationsDisabled
     ∧ urgency buzz < 2
     ∧ toBool (value (hints buzz) HINT_DISPLAY_ON) = false
     ∧ m_ngfClient
         (addNotification
            (worldWith [(1, (7%positive, buzz))] (previewsDisabled (QUInt 1)))
            1 (playerWith 3 [(7%positive, 5)]))
       = m_ngfClient (playerWith 3 [(7%positive, 5)])
         ++ map NgfStopId
              (bindings 7%positive (playerWith 3 [(7%positive, 5)]))
     ∧ bindings 7%positive
         (addNotification
            (worldWith [(1, (7%positive, buzz))] (previewsDisabled (QUInt 1)))
            1 (playerWith 3 [(7%positive, 5)]))
       = []).
Proof.
  split.
  - split; [reflexivity|]. split; [reflexivity|]. split; [reflexivity|].
    split; [reflexivity|]. split; [reflexivity|].
    apply (vibration_bypasses_priority
             (worldWithoutWindow [(1, (7%positive, buzz))]) 1 7%positive buzz
             (playerWith 3 [(7%positive, 5)])); reflexivity.
  - split; [reflexivity|]. split; [reflexivity|]. split; [reflexivity|].
    apply (vibration_bypasses_priority
             (worldWith [(1, (7%positive, buzz))]
                (previewsDisabled (QUInt 1)))
             1 7%positive buzz (playerWith 3 [(7%positive, 5)]));
      reflexivity.
Defined.

(** Under app-notifications-disabled a notification of normal urgency with
    the display-always hint still vibrates: the hint makes it critical. *)
Lemma vibration_started_below_critical_urgency :
  notification
    (manager (worldWith [(1, (7%positive, buzzDisplayOn))]
                (previewsDisabled (QUInt 1)))) 1
  = Some (7%positive, buzzDisplayOn)
  ∧ hasProgress buzzDisplayOn = false
  ∧ toBool (valueOr (hints buzzDisplayOn) HINT_VIBRA (QBool false)) = true
  ∧ priority buzzDisplayOn < m_minimumPriority (playerWith 3 [])
  ∧ currentSuppressionMode
      (worldWith [(1, (7%positive, buzzDisplayOn))]
         (previewsDisabled (QUInt 1)))
    = ApplicationNotificationsDisabled
  ∧ urgency buzzDisplayOn < 2
  ∧ m_ngfClient
      (addNotification
         (worldWith [(1, (7%positive, buzzDisplayOn))]
            (previewsDisabled (QUInt 1)))
         1 (playerWith 3 []))
    = [NgfStopEvent "vibra"; NgfPlay "vibra" ∅]
  ∧ bindings 7%positive
      (addNotification
         (worldWith [(1, (7%positive, buzzDisplayOn))]
            (previewsDisabled (QUInt 1)))
         1 (playerWith 3 []))
    = [1].
Proof. repeat split. Qed.

Lemma call_parameter_set :
  notification (manager (worldWithoutWindow [(1, (7%positive, call))])) 1
  = Some (7%positive, call)
  ∧ hasProgress call = false
  ∧ feedbackItemsOf call ≠ []
  ∧ isEnabled (worldWithoutWindow [(1, (7%positive, call))]) call
      (m_minimumPriority (playerWith 3 []))
    = true
  ∧ m_ngfClient
      (addNotification (worldWithoutWindow [(1, (7%positive, call))]) 1
         (playerWith 3 []))
    = m_ngfClient (playerWith 3 [])
      ++ map NgfStopId (bindings 7%positive (playerWith 3 []))
      ++ feedbackCalls (parameterSet call) (feedbackItemsOf call)
      ++ (if vibraRequested (worldWithoutWindow [(1, (7%positive, call))])
               call
          then vibraCalls else [])
  ∧ parameterSet call !! "sound.filename"
    = Some (QStr (withoutPrefix "file://"
                    (toString (value (hints call) HINT_SOUND_FILE))))
  ∧ parameterSet call !! "sound.enabled" = Some (QBool true).
Proof.
  split; [reflexivity|]. split; [reflexivity|]. split; [discriminate|].
  split; [reflexivity|].
  assert (feedbackItemsOf call ≠ []) as Hitems by discriminate.
  destruct (feedback_parameter_set
              (worldWithoutWindow [(1, (7%positive, call))]) 1 7%positive
              call (playerWith 3 []) eq_refl eq_refl Hitems eq_refl)
    as (Hcalls & _ & _ & _ & Hfile & _).
  split; [exact Hcalls|]. apply Hfile. discriminate.
Defined.

(** What the call above makes of its hints. *)
Example call_is_played :
  m_ngfClient
    (addNotification (worldWithoutWindow [(1, (7%positive, call))]) 1
       (playerWith 3 []))
  = [NgfStopEvent "ring";
     NgfPlay "ring"
       {[ "media.vibra" := QBool false;
          "sound.filename" := QStr "/usr/share/sounds/ring.wav";
          "sound.enabled" := QBool true ]}].
Proof. reflexivity. Qed.

(** A sound-file hint that is there with an empty text sets no sound
    filename, and the vibration asked for by the vibrate hint is started
    without the parameters built for the feedback item. *)
Lemma present_empty_sound_file_sets_no_filename :
  hints forwardedSilent !! HINT_SOUND_FILE = Some (QStr "")
  ∧ notification
      (manager (worldWithoutWindow [(1, (7%positive, forwardedSilent))])) 1
    = Some (7%positive, forwardedSilent)
  ∧ hasProgress forwardedSilent = false
  ∧ feedbackItemsOf forwardedSilent = ["sound"]
  ∧ isEnabled (worldWithoutWindow [(1, (7%positive, forwardedSilent))])
      forwardedSilent (m_minimumPriority (playerWith 3 []))
    = true
  ∧ m_ngfClient
      (addNotification
         (worldWithoutWindow [(1, (7%positive, forwardedSilent))]) 1
         (playerWith 3 []))
    = [NgfStopEvent "sound";
       NgfPlay "sound" {[ "media.vibra" := QBool false ]};
       NgfStopEvent "vibra";
       NgfPlay "vibra" ∅]
  ∧ ({[ "media.vibra" := QBool false ]} : gmap string QVariant)
    !! "sound.filename" = None
  ∧ ({[ "media.vibra" := QBool false ]} : gmap string QVariant)
    !! "sound.enabled" = None
  ∧ (∅ : gmap string QVariant) !! "media.vibra" = None.
Proof. repeat split. Qed.

Lemma sound_file_alone_is_not_played :
  notification
    (manager (worldWithoutWindow [(1, (7%positive, soundFileOnly))])) 1
  = Some (7%positive, soundFileOnly)
  ∧ hasProgress soundFileOnly = false
  ∧ is_Some (hints soundFileOnly !! HINT_SOUND_FILE)
  ∧ isEnabled (worldWithoutWindow [(1, (7%positive, soundFileOnly))])
      soundFileOnly (m_minimumPriority (playerWith 3 []))
    = true
  ∧ feedbackItemsOf soundFileOnly = []
  ∧ m_ngfClient
      (addNotification
         (worldWithoutWindow [(1, (7%positive, soundFileOnly))]) 1
         (playerWith 3 [(7%positive, 5)]))
    = m_ngfClient (playerWith 3 [(7%positive, 5)])
      ++ map NgfStopId (bindings 7%positive (playerWith 3 [(7%positive, 5)]))
      ++ (if vibraRequested
               (worldWithoutWindow [(1, (7%positive, soundFileOnly))])
               soundFileOnly
          then vibraCalls else []).
Proof.
  split; [reflexivity|]. split; [reflexivity|]. split; [by eexists|].
  split; [reflexivity|]. split; [reflexivity|].
  destruct (empty_feedback_list_plays_nothing
              (worldWithoutWindow [(1, (7%positive, soundFileOnly))]) 1
              7%positive soundFileOnly (playerWith 3 [(7%positive, 5)])
              eq_refl eq_refl)
    as (_ & _ & Hplays).
  destruct (Hplays eq_refl) as [Hcalls _]. exact Hcalls.
Defined.

(** The first scenario of the specification: the chat message is added,
    updated and removed. *)
Example chat_scenario :
  let w := worldWith [(1, (7%positive, chat))] [] in
  let w' := worldWith [(1, (7%positive, chatUpdated))] [] in
  let added := run [NotificationAdded w 1] (playerWith 3 []) in
  let updated := run [NotificationAdded w' 1] added in
  let removed := run [NotificationRemoved w' 1] updated in
  m_ngfClient added
  = [NgfStopEvent "sound"; NgfPlay "sound" ∅;
     NgfStopEvent "led"; NgfPlay "led" ∅]
  ∧ bindings 7%positive added = [2; 1]
  ∧ m_ngfClient updated
    = m_ngfClient added
      ++ [NgfStopId 2; NgfStopId 1; NgfStopEvent "led"; NgfPlay "led" ∅]
  ∧ bindings 7%positive updated = [3]
  ∧ m_ngfClient removed = m_ngfClient updated ++ [NgfStopId 3]
  ∧ bindings 7%positive removed = [].
Proof. repeat split. Qed.

(** ** The further statements at work on the Nemo device *)

Lemma chat_enabled_at_lower_threshold :
  3 ≤ 5
  ∧ isEnabled (worldWithoutWindow []) chat 5 = true
  ∧ isEnabled (worldWithoutWindow []) chat 3 = true.
Proof.
  split; [lia|]. split; [reflexivity|].
  apply (isEnabled_lower_threshold (worldWithoutWindow []) chat 5 3);
    [lia | reflexivity].
Defined.

Lemma alarm_enabled_at_any_threshold :
  isCritical alarm = true
  ∧ isEnabled (worldWith [] (previewsDisabled (QUInt 1))) alarm 100
    = isEnabled (worldWith [] (previewsDisabled (QUInt 1))) alarm 0.
Proof.
  split; [reflexivity|].
  apply (isEnabled_critical_any_threshold
           (worldWith [] (previewsDisabled (QUInt 1))) alarm 100 0).
  reflexivity.
Defined.

Lemma negative_priority_plays_sound_only :
  notification
    (manager
       (worldWithoutWindow
          [(1, (7%positive,
                posted [("x-nemo-feedback", QStr "sound");
                        ("x-nemo-vibrate", QBool true)] 1 (-3)))])) 1
  = Some (7%positive,
          posted [("x-nemo-feedback", QStr "sound");
                  ("x-nemo-vibrate", QBool true)] 1 (-3))
  ∧ hasProgress (posted [("x-nemo-feedback", QStr "sound");
                         ("x-nemo-vibrate", QBool true)] 1 (-3))
    = false
  ∧ priority (posted [("x-nemo-feedback", QStr "sound");
                      ("x-nemo-vibrate", QBool true)] 1 (-3)) < 0
  ∧ isCritical (posted [("x-nemo-feedback", QStr "sound");
                        ("x-nemo-vibrate", QBool true)] 1 (-3))
    = false
  ∧ isEnabled
      (worldWithoutWindow
         [(1, (7%positive,
               posted [("x-nemo-feedback", QStr "sound");
                       ("x-nemo-vibrate", QBool true)] 1 (-3)))])
      (posted [("x-nemo-feedback", QStr "sound");
               ("x-nemo-vibrate", QBool true)] 1 (-3)) 0
    = false
  ∧ m_ngfClient
      (addNotification
         (worldWithoutWindow
            [(1, (7%positive,
                  posted [("x-nemo-feedback", QStr "sound");
                          ("x-nemo-vibrate", QBool true)] 1 (-3)))])
         1 (playerWith (-5) []))
    = [NgfStopEvent "sound"; NgfPlay "sound" ∅].
Proof.
  assert (isCritical (posted [("x-nemo-feedback", QStr "sound");
                              ("x-nemo-vibrate", QBool true)] 1 (-3))
          = false) as Hcritical by reflexivity.
  split; [reflexivity|]. split; [reflexivity|]. split; [reflexivity|].
  split; [exact Hcritical|].
  destruct (negative_priority_never_vibrates
              (worldWithoutWindow
                 [(1, (7%positive,
                       posted [("x-nemo-feedback", QStr "sound");
                               ("x-nemo-vibrate", QBool true)] 1 (-3)))])
              1 7%positive
              (posted [("x-nemo-feedback", QStr "sound");
                       ("x-nemo-vibrate", QBool true)] 1 (-3))
              (playerWith (-5) []) eq_refl eq_refl eq_refl Hcritical)
    as [Hdisabled Hcalls].
  split; [exact Hdisabled|]. rewrite Hcalls. reflexivity.
Defined.

Lemma hidden_alarm_is_silenced :
  notification
    (manager (worldWithoutWindow [(1, (7%positive, hiddenAlarm))])) 1
  = Some (7%positive, hiddenAlarm)
  ∧ hasProgress hiddenAlarm = false
  ∧ (hidden hiddenAlarm = true ∨ restored hiddenAlarm = true)
  ∧ m_ngfClient
      (addNotification (worldWithoutWindow [(1, (7%positive, hiddenAlarm))])
         1 (playerWith 0 [(7%positive, 4)]))
    = m_ngfClient (playerWith 0 [(7%positive, 4)])
      ++ map NgfStopId (bindings 7%positive (playerWith 0 [(7%positive, 4)]))
  ∧ bindings 7%positive
      (addNotification (worldWithoutWindow [(1, (7%positive, hiddenAlarm))])
         1 (playerWith 0 [(7%positive, 4)]))
    = [].
Proof.
  split; [reflexivity|]. split; [reflexivity|]. split; [left; reflexivity|].
  apply (addNotification_silences_hidden
           (worldWithoutWindow [(1, (7%positive, hiddenAlarm))]) 1 7%positive
           hiddenAlarm (playerWith 0 [(7%positive, 4)]) eq_refl eq_refl).
  left. reflexivity.
Defined.

Lemma chat_removal_keeps_other_bindings :
  (∀ key n,
     notification (manager (worldWithoutWindow [(1, (7%positive, chat))])) 1
     = Some (key, n) →
     9%positive ≠ key)
  ∧ bindings 9%positive
      (removeNotification (worldWithoutWindow [(1, (7%positive, chat))]) 1
         (playerWith 3 [(7%positive, 2); (9%positive, 1)]))
    = bindings 9%positive (playerWith 3 [(7%positive, 2); (9%positive, 1)])
  ∧ minimumPriority
      (removeNotification (worldWithoutWindow [(1, (7%positive, chat))]) 1
         (playerWith 3 [(7%positive, 2); (9%positive, 1)]))
    = minimumPriority (playerWith 3 [(7%positive, 2); (9%positive, 1)]).
Proof.
  assert (∀ key n,
            notification
              (manager (worldWithoutWindow [(1, (7%positive, chat))])) 1
            = Some (key, n) →
            9%positive ≠ key) as Hother.
  { intros key n Hlive. vm_compute in Hlive. injection Hlive as <- _.
    discriminate. }
  split; [exact Hother|].
  apply (removeNotification_keeps_others
           (worldWithoutWindow [(1, (7%positive, chat))]) 1
           (playerWith 3 [(7%positive, 2); (9%positive, 1)]) 9%positive
           Hother).
Defined.

Lemma chat_removal_stops_what_was_started :
  notification (manager (worldWithoutWindow [(1, (7%positive, chat))])) 1
  = Some (7%positive, chat)
  ∧ hasProgress chat = false
  ∧ notification
      (manager (worldWithoutWindow [(1, (7%positive, chatUpdated))])) 1
    = Some (7%positive, chatUpdated)
  ∧ m_ngfClient
      (removeNotification
         (worldWithoutWindow [(1, (7%positive, chatUpdated))]) 1
         (addNotification (worldWithoutWindow [(1, (7%positive, chat))]) 1
            (playerWith 3 [])))
    = m_ngfClient
        (addNotification (worldWithoutWindow [(1, (7%positive, chat))]) 1
           (playerWith 3 []))
      ++ [NgfStopId 2; NgfStopId 1]
  ∧ bindings 7%positive
      (removeNotification
         (worldWithoutWindow [(1, (7%positive, chatUpdated))]) 1
         (addNotification (worldWithoutWindow [(1, (7%positive, chat))]) 1
            (playerWith 3 [])))
    = [].
Proof.
  split; [reflexivity|]. split; [reflexivity|]. split; [reflexivity|].
  destruct (removal_stops_what_addition_started
              (worldWithoutWindow [(1, (7%positive, chat))])
              (worldWithoutWindow [(1, (7%positive, chatUpdated))])
              1 7%positive chat chatUpdated (playerWith 3 [])
              eq_refl eq_refl eq_refl) as [Hcalls Hnone].
  split; [|exact Hnone]. rewrite Hcalls. reflexivity.
Defined.

Lemma chat_event_was_started :
  2 ∈ bindings 7%positive
        (run [NotificationAdded
                (worldWithoutWindow [(1, (7%positive, chat))]) 1]
           newPlayer)
  ∧ 2 ∈ startedIds []
          (m_ngfClient
             (run [NotificationAdded
                     (worldWithoutWindow [(1, (7%positive, chat))]) 1]
                newPlayer)).
Proof.
  assert (2 ∈ bindings 7%positive
                (run [NotificationAdded
                        (worldWithoutWindow [(1, (7%positive, chat))]) 1]
                   newPlayer)) as Hbound.
  { vm_compute. left. }
  split; [exact Hbound|].
  exact (bindings_were_started
           [NotificationAdded
              (worldWithoutWindow [(1, (7%positive, chat))]) 1]
           7%positive 2 Hbound).
Defined.

Lemma chat_sound_follows_its_stop :
  m_ngfClient
    (run [NotificationAdded (worldWithoutWindow [(1, (7%positive, chat))]) 1]
       newPlayer)
  !! 1%nat
  = Some (NgfPlay "sound" ∅)
  ∧ ∃ j, 1%nat = S j
         ∧ m_ngfClient
             (run [NotificationAdded
                     (worldWithoutWindow [(1, (7%positive, chat))]) 1]
                newPlayer)
           !! j
           = Some (NgfStopEvent "sound").
Proof.
  split; [reflexivity|].
  apply (play_follows_stop
           [NotificationAdded
              (worldWithoutWindow [(1, (7%positive, chat))]) 1]
           1 "sound" ∅).
  reflexivity.
Defined.

Lemma chat_binds_two_events :
  notification (manager (worldWithoutWindow [(1, (7%positive, chat))])) 1
  = Some (7%positive, chat)
  ∧ hasProgress chat = false
  ∧ length
      (bindings 7%positive
         (addNotification (worldWithoutWindow [(1, (7%positive, chat))]) 1
            (playerWith 3 [(7%positive, 4); (7%positive, 5); (7%positive, 6)])))
    = 2%nat.
Proof.
  split; [reflexivity|]. split; [reflexivity|].
  rewrite (addNotification_binding_count
             (worldWithoutWindow [(1, (7%positive, chat))]) 1 7%positive chat
             (playerWith 3
                [(7%positive, 4); (7%positive, 5); (7%positive, 6)])
             eq_refl eq_refl).
  reflexivity.
Defined.

Lemma chat_added_twice :
  notification (manager (worldWithoutWindow [(1, (7%positive, chat))])) 1
  = Some (7%positive, chat)
  ∧ hasProgress chat = false
  ∧ m_ngfClient
      (addNotification (worldWithoutWindow [(1, (7%positive, chat))]) 1
         (addNotification (worldWithoutWindow [(1, (7%positive, chat))]) 1
            (playerWith 3 [])))
    = m_ngfClient
        (addNotification (worldWithoutWindow [(1, (7%positive, chat))]) 1
           (playerWith 3 []))
      ++ map NgfStopId
           (bindings 7%positive
              (addNotification
                 (worldWithoutWindow [(1, (7%positive, chat))]) 1
                 (playerWith 3 [])))
      ++ startCalls (worldWithoutWindow [(1, (7%positive, chat))]) chat
           (playerWith 3 [])
  ∧ length
      (bindings 7%positive
         (addNotification (worldWithoutWindow [(1, (7%positive, chat))]) 1
            (addNotification (worldWithoutWindow [(1, (7%positive, chat))])
               1 (playerWith 3 []))))
    = length
        (bindings 7%positive
           (addNotification (worldWithoutWindow [(1, (7%positive, chat))]) 1
              (playerWith 3 []))).
Proof.
  split; [reflexivity|]. split; [reflexivity|].
  exact (repeated_addition (worldWithoutWindow [(1, (7%positive, chat))]) 1
           7%positive chat (playerWith 3 []) eq_refl eq_refl).
Defined.

Lemma bare_file_prefix_gives_empty_filename :
  toString (value (hints (posted [("sound-file", QStr "file://")] 1 5))
              HINT_SOUND_FILE)
  = "file://" +:+ ""
  ∧ feedbackProperties (posted [("sound-file", QStr "file://")] 1 5)
    !! "sound.filename"
    = Some (QStr "")
  ∧ feedbackProperties (posted [("sound-file", QStr "file://")] 1 5)
    !! "sound.enabled"
    = Some (QBool true).
Proof.
  split; [reflexivity|].
  destruct (sound_file_prefix_taken_once
              (posted [("sound-file", QStr "file://")] 1 5) "")
    as [Hprefix _].
  exact (Hprefix eq_refl).
Defined.
